(** * Vertex orientation of H3 cells

    A shallow embedding of [src/h3lib/lib/vertex.c]: the base cell vertex
    rotation table, the rotation resolver [vertexRotations] and the
    direction-to-vertex mapper [vertexNumForDirection], followed by the
    properties established about them.

    C [int] values are integers in [Z]; the arithmetic of the file stays far
    from the limits of [int], so no wrap-around is involved.  A read outside
    the bounds of an array has no defined behaviour in C: every array access
    returns an [option], [None] standing for such a read, and the functions
    are written in the option monad. *)

From Stdlib Require Import ZArith NArith List Bool Lia Permutation.
Import ListNotations.

Local Open Scope Z_scope.

(** ** Reads that may fall outside an array *)

Definition bind {A B : Type} (m : option A) (k : A -> option B) : option B :=
  match m with
  | Some a => k a
  | None => None
  end.

Notation "x <- m ;; k" := (bind m (fun x => k))
  (at level 61, m at next level, right associativity).

(** [a[i]] for an [int] index. *)
Definition index {A : Type} (a : list A) (i : Z) : option A :=
  if i <? 0 then None else nth_error a (Z.to_nat i).

(** A C [int] used as a condition. *)
Definition truthy (z : Z) : bool := negb (z =? 0).

(** [a && b], the right operand evaluated only when the left one holds. *)
Definition and_then (a : bool) (b : option bool) : option bool :=
  if a then b else Some false.

(** ** Constants of the headers *)

(** Modelled from the spec: the [Direction] enumeration, declared in a
    header that is not among the sources.  The spec lists center, K, J, JK,
    I, IK axes and an invalid sentinel; the comments of [vertex.c] give 0 to
    the center and 1 to the K axis, and its seven-entry tables leave ordinal
    6 (the IJ axis) below the sentinel.  A [Direction] is the ordinal of the
    enumerator, a natural number: the enumeration has no negative
    enumerator. *)
Definition Direction : Type := N.

Definition CENTER_DIGIT : Direction := 0%N.
Definition K_AXES_DIGIT : Direction := 1%N.
Definition J_AXES_DIGIT : Direction := 2%N.
Definition JK_AXES_DIGIT : Direction := 3%N.
Definition I_AXES_DIGIT : Direction := 4%N.
Definition IK_AXES_DIGIT : Direction := 5%N.
Definition IJ_AXES_DIGIT : Direction := 6%N.
Definition INVALID_DIGIT : Direction := 7%N.
Definition NUM_DIGITS : Direction := INVALID_DIGIT.

(** Modelled from the spec: the sizes, fixed by headers that are not among
    the sources: 122 base units of at most 5 face slots (the shape of the
    table below), 6 vertexes for a hexagon and 5 for a pentagon. *)
Definition NUM_BASE_CELLS : Z := 122.
Definition MAX_BASE_CELL_FACES : Z := 5.
Definition NUM_HEX_VERTS : Z := 6.
Definition NUM_PENT_VERTS : Z := 5.

(** Modelled from the spec: the two sentinels, defined in a header that is
    not among the sources.  The spec only requires each to differ from every
    rotation count and from every vertex number; they take the value that
    marks an unused face slot of the table. *)
Definition INVALID_ROTATIONS : Z := -1.
Definition INVALID_VERTEX_NUM : Z := -1.

(** ** Data *)

(** A cell identifier, a 64-bit unsigned integer. *)
Definition H3Index : Type := Z.

Module CoordIJK.
Record t : Type := mk { i : Z; j : Z; k : Z }.
End CoordIJK.

Module FaceIJK.
Record t : Type := mk { face : Z; coord : CoordIJK.t }.
End FaceIJK.

Module BaseCellRotation.
Record t : Type := mk { face : Z; ccwRot60 : Z }.
End BaseCellRotation.

Local Abbreviation R := BaseCellRotation.mk.

(** Base cell vertex rotation table: for each base cell, the faces it lies
    on and the CCW rotations to the orientation of its home face.  Pentagons
    have their faces in directional order, starting at [J_AXES_DIGIT]. *)
Definition baseCellVertexRotations : list (list BaseCellRotation.t) := [
    [R 0 5; R 1 0; R 2 1; R (-1) 0; R (-1) 0];  (* base cell 0 *)
    [R 1 5; R 2 0; R (-1) 0; R (-1) 0; R (-1) 0];  (* base cell 1 *)
    [R 0 5; R 1 0; R 2 1; R 6 3; R (-1) 0];  (* base cell 2 *)
    [R 1 5; R 2 0; R 3 1; R (-1) 0; R (-1) 0];  (* base cell 3 *)
    [R 4 5; R 0 0; R 2 3; R 1 2; R 3 4];  (* base cell 4 (pent) *)
    [R 0 5; R 1 0; R (-1) 0; R (-1) 0; R (-1) 0];  (* base cell 5 *)
    [R 1 0; R 2 1; R 6 3; R (-1) 0; R (-1) 0];  (* base cell 6 *)
    [R 1 5; R 2 0; R 3 1; R 7 3; R (-1) 0];  (* base cell 7 *)
    [R 0 0; R 1 1; R 4 5; R (-1) 0; R (-1) 0];  (* base cell 8 *)
    [R 1 5; R 2 0; R 7 3; R (-1) 0; R (-1) 0];  (* base cell 9 *)
    [R 0 5; R 1 0; R 6 3; R (-1) 0; R (-1) 0];  (* base cell 10 *)
    [R 1 0; R 6 3; R (-1) 0; R (-1) 0; R (-1) 0];  (* base cell 11 *)
    [R 2 5; R 3 0; R 4 1; R (-1) 0; R (-1) 0];  (* base cell 12 *)
    [R 2 5; R 3 0; R (-1) 0; R (-1) 0; R (-1) 0];  (* base cell 13 *)
    [R 6 3; R 11 0; R 2 1; R 7 4; R 1 0];  (* base cell 14 (pent) *)
    [R 0 1; R 3 5; R 4 0; R (-1) 0; R (-1) 0];  (* base cell 15 *)
    [R 0 0; R 1 1; R 4 5; R 5 3; R (-1) 0];  (* base cell 16 *)
    [R 1 3; R 6 0; R 11 3; R (-1) 0; R (-1) 0];  (* base cell 17 *)
    [R 0 0; R 1 1; R 5 3; R (-1) 0; R (-1) 0];  (* base cell 18 *)
    [R 2 0; R 7 3; R (-1) 0; R (-1) 0; R (-1) 0];  (* base cell 19 *)
    [R 2 3; R 7 0; R 11 3; R (-1) 0; R (-1) 0];  (* base cell 20 *)
    [R 2 0; R 3 1; R 7 3; R (-1) 0; R (-1) 0];  (* base cell 21 *)
    [R 0 0; R 4 5; R (-1) 0; R (-1) 0; R (-1) 0];  (* base cell 22 *)
    [R 1 3; R 6 0; R 10 3; R (-1) 0; R (-1) 0];  (* base cell 23 *)
    [R 5 3; R 10 0; R 1 1; R 6 4; R 0 0];  (* base cell 24 (pent) *)
    [R 1 3; R 6 0; R 10 3; R 11 3; R (-1) 0];  (* base cell 25 *)
    [R 2 5; R 3 0; R 4 1; R 8 3; R (-1) 0];  (* base cell 26 *)
    [R 6 3; R 7 3; R 11 0; R (-1) 0; R (-1) 0];  (* base cell 27 *)
    [R 3 5; R 4 0; R (-1) 0; R (-1) 0; R (-1) 0];  (* base cell 28 *)
    [R 2 5; R 3 0; R 8 3; R (-1) 0; R (-1) 0];  (* base cell 29 *)
    [R 0 0; R 5 3; R (-1) 0; R (-1) 0; R (-1) 0];  (* base cell 30 *)
    [R 0 1; R 3 5; R 4 0; R 9 3; R (-1) 0];  (* base cell 31 *)
    [R 0 3; R 5 0; R 10 3; R (-1) 0; R (-1) 0];  (* base cell 32 *)
    [R 0 0; R 4 5; R 5 3; R (-1) 0; R (-1) 0];  (* base cell 33 *)
    [R 2 3; R 7 0; R 12 3; R (-1) 0; R (-1) 0];  (* base cell 34 *)
    [R 6 3; R 11 0; R (-1) 0; R (-1) 0; R (-1) 0];  (* base cell 35 *)
    [R 2 3; R 7 0; R 11 3; R 12 3; R (-1) 0];  (* base cell 36 *)
    [R 5 3; R 6 3; R 10 0; R (-1) 0; R (-1) 0];  (* base cell 37 *)
    [R 7 3; R 12 0; R 3 1; R 8 4; R 2 0];  (* base cell 38 (pent) *)
    [R 6 0; R 10 3; R (-1) 0; R (-1) 0; R (-1) 0];  (* base cell 39 *)
    [R 7 0; R 11 3; R (-1) 0; R (-1) 0; R (-1) 0];  (* base cell 40 *)
    [R 0 1; R 4 0; R 9 3; R (-1) 0; R (-1) 0];  (* base cell 41 *)
    [R 3 0; R 4 1; R 8 3; R (-1) 0; R (-1) 0];  (* base cell 42 *)
    [R 3 0; R 8 3; R (-1) 0; R (-1) 0; R (-1) 0];  (* base cell 43 *)
    [R 3 5; R 4 0; R 9 3; R (-1) 0; R (-1) 0];  (* base cell 44 *)
    [R 6 0; R 10 3; R 11 3; R (-1) 0; R (-1) 0];  (* base cell 45 *)
    [R 6 3; R 7 3; R 11 0; R 16 3; R (-1) 0];  (* base cell 46 *)
    [R 3 3; R 8 0; R 12 3; R (-1) 0; R (-1) 0];  (* base cell 47 *)
    [R 0 3; R 5 0; R 14 3; R (-1) 0; R (-1) 0];  (* base cell 48 *)
    [R 9 3; R 14 0; R 0 1; R 5 4; R 4 0];  (* base cell 49 (pent) *)
    [R 0 3; R 5 0; R 10 3; R 14 3; R (-1) 0];  (* base cell 50 *)
    [R 7 3; R 8 3; R 12 0; R (-1) 0; R (-1) 0];  (* base cell 51 *)
    [R 5 3; R 10 0; R (-1) 0; R (-1) 0; R (-1) 0];  (* base cell 52 *)
    [R 4 0; R 9 3; R (-1) 0; R (-1) 0; R (-1) 0];  (* base cell 53 *)
    [R 7 3; R 12 0; R (-1) 0; R (-1) 0; R (-1) 0];  (* base cell 54 *)
    [R 7 0; R 11 3; R 12 3; R (-1) 0; R (-1) 0];  (* base cell 55 *)
    [R 6 3; R 11 0; R 16 3; R (-1) 0; R (-1) 0];  (* base cell 56 *)
    [R 5 1; R 6 3; R 10 0; R 15 3; R (-1) 0];  (* base cell 57 *)
    [R 8 3; R 13 0; R 4 1; R 9 4; R 3 0];  (* base cell 58 (pent) *)
    [R 6 3; R 10 0; R 15 3; R (-1) 0; R (-1) 0];  (* base cell 59 *)
    [R 7 3; R 11 0; R 16 3; R (-1) 0; R (-1) 0];  (* base cell 60 *)
    [R 4 3; R 9 0; R 14 3; R (-1) 0; R (-1) 0];  (* base cell 61 *)
    [R 3 3; R 8 0; R 13 3; R (-1) 0; R (-1) 0];  (* base cell 62 *)
    [R 11 3; R 6 0; R 15 1; R 10 4; R 16 0];  (* base cell 63 (pent) *)
    [R 3 3; R 8 0; R 12 3; R 13 3; R (-1) 0];  (* base cell 64 *)
    [R 4 3; R 9 0; R 13 3; R (-1) 0; R (-1) 0];  (* base cell 65 *)
    [R 5 3; R 9 3; R 14 0; R (-1) 0; R (-1) 0];  (* base cell 66 *)
    [R 5 0; R 14 3; R (-1) 0; R (-1) 0; R (-1) 0];  (* base cell 67 *)
    [R 11 3; R 16 0; R (-1) 0; R (-1) 0; R (-1) 0];  (* base cell 68 *)
    [R 8 0; R 12 3; R (-1) 0; R (-1) 0; R (-1) 0];  (* base cell 69 *)
    [R 5 0; R 10 3; R 14 3; R (-1) 0; R (-1) 0];  (* base cell 70 *)
    [R 7 3; R 8 3; R 12 0; R 17 3; R (-1) 0];  (* base cell 71 *)
    [R 12 3; R 7 0; R 16 1; R 11 4; R 17 0];  (* base cell 72 (pent) *)
    [R 7 3; R 12 0; R 17 3; R (-1) 0; R (-1) 0];  (* base cell 73 *)
    [R 5 3; R 10 0; R 15 3; R (-1) 0; R (-1) 0];  (* base cell 74 *)
    [R 4 3; R 9 0; R 13 3; R 14 3; R (-1) 0];  (* base cell 75 *)
    [R 8 3; R 9 3; R 13 0; R (-1) 0; R (-1) 0];  (* base cell 76 *)
    [R 11 3; R 15 1; R 16 0; R (-1) 0; R (-1) 0];  (* base cell 77 *)
    [R 10 3; R 15 0; R (-1) 0; R (-1) 0; R (-1) 0];  (* base cell 78 *)
    [R 10 3; R 15 0; R 16 5; R (-1) 0; R (-1) 0];  (* base cell 79 *)
    [R 11 3; R 16 0; R 17 5; R (-1) 0; R (-1) 0];  (* base cell 80 *)
    [R 9 3; R 14 0; R (-1) 0; R (-1) 0; R (-1) 0];  (* base cell 81 *)
    [R 8 3; R 13 0; R (-1) 0; R (-1) 0; R (-1) 0];  (* base cell 82 *)
    [R 10 3; R 5 0; R 19 1; R 14 4; R 15 0];  (* base cell 83 (pent) *)
    [R 8 0; R 12 3; R 13 3; R (-1) 0; R (-1) 0];  (* base cell 84 *)
    [R 5 3; R 9 3; R 14 0; R 19 3; R (-1) 0];  (* base cell 85 *)
    [R 9 0; R 13 3; R (-1) 0; R (-1) 0; R (-1) 0];  (* base cell 86 *)
    [R 5 3; R 14 0; R 19 3; R (-1) 0; R (-1) 0];  (* base cell 87 *)
    [R 12 3; R 16 1; R 17 0; R (-1) 0; R (-1) 0];  (* base cell 88 *)
    [R 8 3; R 12 0; R 17 3; R (-1) 0; R (-1) 0];  (* base cell 89 *)
    [R 11 3; R 15 1; R 16 0; R 17 5; R (-1) 0];  (* base cell 90 *)
    [R 12 3; R 17 0; R (-1) 0; R (-1) 0; R (-1) 0];  (* base cell 91 *)
    [R 10 3; R 15 0; R 19 1; R (-1) 0; R (-1) 0];  (* base cell 92 *)
    [R 15 1; R 16 0; R (-1) 0; R (-1) 0; R (-1) 0];  (* base cell 93 *)
    [R 9 0; R 13 3; R 14 3; R (-1) 0; R (-1) 0];  (* base cell 94 *)
    [R 10 3; R 15 0; R 16 5; R 19 1; R (-1) 0];  (* base cell 95 *)
    [R 8 3; R 9 3; R 13 0; R 18 3; R (-1) 0];  (* base cell 96 *)
    [R 13 3; R 8 0; R 17 1; R 12 4; R 18 0];  (* base cell 97 (pent) *)
    [R 8 3; R 13 0; R 18 3; R (-1) 0; R (-1) 0];  (* base cell 98 *)
    [R 16 1; R 17 0; R (-1) 0; R (-1) 0; R (-1) 0];  (* base cell 99 *)
    [R 14 3; R 15 5; R 19 0; R (-1) 0; R (-1) 0];  (* base cell 100 *)
    [R 9 3; R 14 0; R 19 3; R (-1) 0; R (-1) 0];  (* base cell 101 *)
    [R 14 3; R 19 0; R (-1) 0; R (-1) 0; R (-1) 0];  (* base cell 102 *)
    [R 12 3; R 17 0; R 18 5; R (-1) 0; R (-1) 0];  (* base cell 103 *)
    [R 9 3; R 13 0; R 18 3; R (-1) 0; R (-1) 0];  (* base cell 104 *)
    [R 12 3; R 16 1; R 17 0; R 18 5; R (-1) 0];  (* base cell 105 *)
    [R 15 1; R 16 0; R 17 5; R (-1) 0; R (-1) 0];  (* base cell 106 *)
    [R 14 3; R 9 0; R 18 1; R 13 4; R 19 0];  (* base cell 107 (pent) *)
    [R 15 0; R 19 1; R (-1) 0; R (-1) 0; R (-1) 0];  (* base cell 108 *)
    [R 15 0; R 16 5; R 19 1; R (-1) 0; R (-1) 0];  (* base cell 109 *)
    [R 13 3; R 18 0; R (-1) 0; R (-1) 0; R (-1) 0];  (* base cell 110 *)
    [R 13 3; R 17 1; R 18 0; R (-1) 0; R (-1) 0];  (* base cell 111 *)
    [R 14 3; R 18 1; R 19 0; R (-1) 0; R (-1) 0];  (* base cell 112 *)
    [R 16 1; R 17 0; R 18 5; R (-1) 0; R (-1) 0];  (* base cell 113 *)
    [R 14 3; R 15 5; R 18 1; R 19 0; R (-1) 0];  (* base cell 114 *)
    [R 13 3; R 18 0; R 19 5; R (-1) 0; R (-1) 0];  (* base cell 115 *)
    [R 17 1; R 18 0; R (-1) 0; R (-1) 0; R (-1) 0];  (* base cell 116 *)
    [R 15 5; R 19 0; R 17 3; R 18 2; R 16 4];  (* base cell 117 (pent) *)
    [R 15 5; R 18 1; R 19 0; R (-1) 0; R (-1) 0];  (* base cell 118 *)
    [R 13 3; R 17 1; R 18 0; R 19 5; R (-1) 0];  (* base cell 119 *)
    [R 18 1; R 19 0; R (-1) 0; R (-1) 0; R (-1) 0];  (* base cell 120 *)
    [R 17 1; R 18 0; R 19 5; R (-1) 0; R (-1) 0]  (* base cell 121 *)
].

(** [baseCellVertexRotations[baseCell][i]]. *)
Definition baseCellVertexRotations_at (baseCell i : Z)
  : option BaseCellRotation.t :=
  row <- index baseCellVertexRotations baseCell ;;
  index row i.

(** Hexagon direction to vertex number relationships (same face); direction
    0 (center) is not used. *)
Definition directionToVertexNumHex : list Z :=
  [Z.of_N INVALID_DIGIT; 3; 1; 2; 5; 4; 0].

(** Pentagon direction to vertex number relationships (same face);
    directions 0 (center) and 1 (deleted K axis) are not used. *)
Definition directionToVertexNumPent : list Z :=
  [Z.of_N INVALID_DIGIT; Z.of_N INVALID_DIGIT; 1; 2; 4; 3; 0].

(** ** The functions the file calls into *)

(** The functions of the library that [vertex.c] calls and does not define.
    They are left abstract: every property below holds whatever they
    compute. *)
Class H3Lib : Type := {
  _h3ToFaceIjk : H3Index -> FaceIJK.t;
  h3GetBaseCell : H3Index -> Z;
  _h3LeadingNonZeroDigit : H3Index -> Direction;
  _isBaseCellPentagon : Z -> Z;
  h3IsPentagon : H3Index -> Z
}.

(** ** The rotation resolver *)

(** The indexes [lo, lo + 1, ..., lo + n - 1] a [for] loop goes through. *)
Fixpoint indexes (lo : Z) (n : nat) : list Z :=
  match n with
  | O => []
  | S n' => lo :: indexes (lo + 1) n'
  end.

Section Resolver.
Context {lib : H3Lib}.

(** The body of the loop of [vertexRotations], run over the indexes [idxs];
    the value after the loop when none of them returns. *)
Fixpoint vertexRotations_loop (fijk : FaceIJK.t)
    (baseCell cellLeadingDigit : Z) (idxs : list Z) : option Z :=
  match idxs with
  | [] =>
      (* Failure case, should not be reachable *)
      Some INVALID_ROTATIONS
  | i :: rest =>
      rotation <- baseCellVertexRotations_at baseCell i ;;
      if BaseCellRotation.face rotation =? FaceIJK.face fijk then
        let ccwRot60 := BaseCellRotation.ccwRot60 rotation in
        (* Check whether the cell crosses a deleted pentagon subsequence *)
        if truthy (_isBaseCellPentagon baseCell) then
          jkToIk <- and_then (cellLeadingDigit =? Z.of_N JK_AXES_DIGIT)
                      (r <- baseCellVertexRotations_at baseCell
                              (Z.of_N IK_AXES_DIGIT - 2) ;;
                       Some (FaceIJK.face fijk =? BaseCellRotation.face r)) ;;
          if jkToIk then
            (* Crosses from JK to IK: Rotate CW *)
            Some (if ccwRot60 =? 0 then 5 else ccwRot60 - 1)
          else
            ikToJ <- and_then (cellLeadingDigit =? Z.of_N IK_AXES_DIGIT)
                       (r <- baseCellVertexRotations_at baseCell
                               (Z.of_N JK_AXES_DIGIT - 2) ;;
                        Some (FaceIJK.face fijk =? BaseCellRotation.face r)) ;;
            if ikToJ then
              (* Crosses from IK to J: Rotate CCW *)
              Some (Z.rem (ccwRot60 + 1) 6)
            else Some ccwRot60
        else Some ccwRot60
      else vertexRotations_loop fijk baseCell cellLeadingDigit rest
  end.

(** Number of CCW rotations of the cell's vertex numbers compared to the
    directional layout of its neighbors, or [INVALID_ROTATIONS] if the
    cell's base cell was not found on its face. *)
Definition vertexRotations (cell : H3Index) : option Z :=
  let fijk := _h3ToFaceIjk cell in
  let baseCell := h3GetBaseCell cell in
  let cellLeadingDigit := Z.of_N (_h3LeadingNonZeroDigit cell) in
  vertexRotations_loop fijk baseCell cellLeadingDigit
    (indexes 0 (Z.to_nat MAX_BASE_CELL_FACES)).

(** ** The direction-to-vertex mapper *)

(** [(canonical + numVerts - rotations) % numVerts], the expression that
    rotates a canonical vertex number; [%] truncates towards zero. *)
Definition rotatedVertexNum (canonical numVerts rotations : Z) : Z :=
  Z.rem (canonical + numVerts - rotations) numVerts.

(** [a[direction]] for a table indexed by direction. *)
Definition at_direction (a : list Z) (direction : Direction) : option Z :=
  nth_error a (N.to_nat direction).

(** The first vertex number for a given direction, or [INVALID_VERTEX_NUM]
    if the direction is not valid for this cell. *)
Definition vertexNumForDirection (origin : H3Index) (direction : Direction)
  : option Z :=
  let isPentagon := h3IsPentagon origin in
  (* Check for invalid directions *)
  if (direction =? CENTER_DIGIT)%N
     || (INVALID_DIGIT <=? direction)%N
     || (truthy isPentagon && (direction =? K_AXES_DIGIT)%N)
  then Some INVALID_VERTEX_NUM
  else
    rotations <- vertexRotations origin ;;
    (* Handle bad rotation calculation: should be unreachable *)
    if rotations =? INVALID_ROTATIONS then Some INVALID_VERTEX_NUM
    else if truthy isPentagon then
      canonical <- at_direction directionToVertexNumPent direction ;;
      Some (rotatedVertexNum canonical NUM_PENT_VERTS rotations)
    else
      canonical <- at_direction directionToVertexNumHex direction ;;
      Some (rotatedVertexNum canonical NUM_HEX_VERTS rotations).

End Resolver.

(** ** A concrete library *)

(** An instance of [H3Lib] on which the functions can be run: a cell
    identifier packs a face (5 bits), a base cell (7 bits) and a leading
    digit above them. *)
Module Sample.

Definition cell (face baseCell digit : Z) : H3Index :=
  face + 32 * (baseCell + 128 * digit).

(** The rows of the table marked as pentagons. *)
Definition pentagons : list Z :=
  [4; 14; 24; 38; 49; 58; 63; 72; 83; 97; 107; 117].

Definition isBaseCellPentagon (baseCell : Z) : Z :=
  if existsb (Z.eqb baseCell) pentagons then 1 else 0.

(** A cell is a pentagon when its base cell is one and it has no nonzero
    digit. *)
Definition lib : H3Lib := {|
  _h3ToFaceIjk c := FaceIJK.mk (c mod 32) (CoordIJK.mk 0 0 0);
  h3GetBaseCell c := (c / 32) mod 128;
  _h3LeadingNonZeroDigit c := Z.to_N (c / 4096);
  _isBaseCellPentagon := isBaseCellPentagon;
  h3IsPentagon c :=
    if (c / 4096 =? 0) then isBaseCellPentagon ((c / 32) mod 128) else 0
|}.

(** The same library with the faces counted from [-1], so that a cell can
    be reported on the marker of an unused slot. *)
Definition below : H3Lib := {|
  _h3ToFaceIjk c := FaceIJK.mk (c mod 32 - 1) (CoordIJK.mk 0 0 0);
  h3GetBaseCell c := (c / 32) mod 128;
  _h3LeadingNonZeroDigit c := Z.to_N (c / 4096);
  _isBaseCellPentagon := isBaseCellPentagon;
  h3IsPentagon c :=
    if (c / 4096 =? 0) then isBaseCellPentagon ((c / 32) mod 128) else 0
|}.

End Sample.


(** ** Checks on the table *)

(** What holds of every row of the table: it has [MAX_BASE_CELL_FACES]
    slots, every recorded rotation lies in [0,5], two slots recording the
    same face record the same rotation, and the slots read by the two
    pentagon checks record different faces. *)
Definition rotation_in_range (r : BaseCellRotation.t) : bool :=
  (0 <=? BaseCellRotation.ccwRot60 r) && (BaseCellRotation.ccwRot60 r <=? 5).

Definition agree (r s : BaseCellRotation.t) : bool :=
  negb (BaseCellRotation.face r =? BaseCellRotation.face s)
  || (BaseCellRotation.ccwRot60 r =? BaseCellRotation.ccwRot60 s).

Definition row_ok (row : list BaseCellRotation.t) : bool :=
  (Z.of_nat (length row) =? MAX_BASE_CELL_FACES)
  && forallb rotation_in_range row
  && forallb (fun r => forallb (agree r) row) row
  && match index row (Z.of_N IK_AXES_DIGIT - 2),
           index row (Z.of_N JK_AXES_DIGIT - 2) with
     | Some a, Some b =>
         negb (BaseCellRotation.face a =? BaseCellRotation.face b)
     | _, _ => false
     end.

(** The first slot of a row recording the face [f]. *)
Definition first_slot (row : list BaseCellRotation.t) (f : Z)
  : option BaseCellRotation.t :=
  find (fun r => BaseCellRotation.face r =? f) row.

(** The rotation of a pentagon's cell once the slot recording its face is
    known: the two checks of [vertexRotations], on the faces [fIK] and [fJK]
    of the slots they read. *)
Definition crossing (cellLeadingDigit f fIK fJK ccwRot60 : Z) : Z :=
  if (cellLeadingDigit =? Z.of_N JK_AXES_DIGIT) && (f =? fIK)
  then (if ccwRot60 =? 0 then 5 else ccwRot60 - 1)
  else if (cellLeadingDigit =? Z.of_N IK_AXES_DIGIT) && (f =? fJK)
  then Z.rem (ccwRot60 + 1) 6
  else ccwRot60.

Section Corrected.
Context {lib : H3Lib}.

(** The rotation [vertexRotations] returns for a cell found in the slot
    [r], given the faces [fIK] and [fJK] of the slots the pentagon checks
    read. *)
Definition corrected (cell : H3Index) (fIK fJK : Z)
    (r : BaseCellRotation.t) : Z :=
  if truthy (_isBaseCellPentagon (h3GetBaseCell cell))
  then crossing (Z.of_N (_h3LeadingNonZeroDigit cell))
         (FaceIJK.face (_h3ToFaceIjk cell)) fIK fJK
         (BaseCellRotation.ccwRot60 r)
  else BaseCellRotation.ccwRot60 r.

End Corrected.

(** ** The shape of the rows *)

(** Modelled from the spec: the number of faces of the icosahedron, fixed
    by a header that is not among the sources.  A face is one of
    [0 .. NUM_ICOSA_FACES - 1]; an unused slot of the table is marked by the
    face [-1]. *)
Definition NUM_ICOSA_FACES : Z := 20.

Definition unused (r : BaseCellRotation.t) : bool :=
  BaseCellRotation.face r =? -1.

Definition face_in_range (r : BaseCellRotation.t) : bool :=
  unused r
  || ((0 <=? BaseCellRotation.face r)
      && (BaseCellRotation.face r <? NUM_ICOSA_FACES)).

Definition unused_rotation_zero (r : BaseCellRotation.t) : bool :=
  negb (unused r) || (BaseCellRotation.ccwRot60 r =? 0).

(** Once a slot is unused, the slots after it are. *)
Fixpoint unused_trail (row : list BaseCellRotation.t) : bool :=
  match row with
  | [] => true
  | r :: rest =>
      (if unused r then forallb unused rest else true) && unused_trail rest
  end.

(** No face is recorded by two slots. *)
Fixpoint faces_distinct (row : list BaseCellRotation.t) : bool :=
  match row with
  | [] => true
  | r :: rest =>
      (unused r
       || negb (existsb (fun s => BaseCellRotation.face s
                                  =? BaseCellRotation.face r) rest))
      && faces_distinct rest
  end.

(** What more holds of every row of the table: its faces are faces of the
    icosahedron or the marker of an unused slot, its unused slots come last
    and record no rotation, its first two slots are used and no face occurs
    twice. *)
Definition row_shape_ok (row : list BaseCellRotation.t) : bool :=
  forallb face_in_range row
  && forallb unused_rotation_zero row
  && unused_trail row
  && faces_distinct row
  && match row with
     | r0 :: r1 :: _ => negb (unused r0) && negb (unused r1)
     | _ => false
     end.

(** The directions with a vertex of their own: all but the center for a
    hexagon, all but the center and the K axis for a pentagon. *)
Definition hexagon_directions : list Direction :=
  [K_AXES_DIGIT; J_AXES_DIGIT; JK_AXES_DIGIT; I_AXES_DIGIT; IK_AXES_DIGIT;
   IJ_AXES_DIGIT].

Definition pentagon_directions : list Direction :=
  [J_AXES_DIGIT; JK_AXES_DIGIT; I_AXES_DIGIT; IK_AXES_DIGIT; IJ_AXES_DIGIT].

(** ** Properties of the table *)

Lemma table_rows_ok : forallb row_ok baseCellVertexRotations = true.
Proof. vm_compute. reflexivity. Qed.

Lemma table_size : Z.of_nat (length baseCellVertexRotations) = NUM_BASE_CELLS.
Proof. reflexivity. Qed.

Lemma index_Some {A : Type} (a : list A) (n : Z) (x : A) :
  index a n = Some x -> 0 <= n < Z.of_nat (length a) /\ In x a.
Proof.
  unfold index. destruct (n <? 0) eqn:E; [discriminate|].
  intros H. apply Z.ltb_ge in E. split.
  - assert (Hn : (Z.to_nat n < length a)%nat).
    { apply nth_error_Some. rewrite H. discriminate. }
    lia.
  - eapply nth_error_In; eassumption.
Qed.

Lemma index_in_range {A : Type} (a : list A) (n : Z) :
  0 <= n < Z.of_nat (length a) -> exists x, index a n = Some x.
Proof.
  intros H. unfold index.
  destruct (n <? 0) eqn:E; [apply Z.ltb_lt in E; lia|].
  destruct (nth_error a (Z.to_nat n)) eqn:En; [eauto|].
  apply nth_error_None in En. lia.
Qed.

Lemma row_of_base_cell (baseCell : Z) (row : list BaseCellRotation.t) :
  index baseCellVertexRotations baseCell = Some row ->
  0 <= baseCell < NUM_BASE_CELLS /\ row_ok row = true.
Proof.
  intros H. apply index_Some in H. destruct H as [Hr Hin]. split.
  - rewrite <- table_size. exact Hr.
  - pose proof table_rows_ok as Hall.
    rewrite forallb_forall in Hall. apply Hall. exact Hin.
Qed.

Lemma base_cell_row (baseCell : Z) :
  0 <= baseCell < NUM_BASE_CELLS ->
  exists row, index baseCellVertexRotations baseCell = Some row.
Proof.
  intros H. apply index_in_range. rewrite table_size. exact H.
Qed.

Lemma at_Some (baseCell n : Z) (r : BaseCellRotation.t) :
  baseCellVertexRotations_at baseCell n = Some r ->
  exists row, index baseCellVertexRotations baseCell = Some row
              /\ index row n = Some r.
Proof.
  unfold baseCellVertexRotations_at, bind.
  destruct (index baseCellVertexRotations baseCell) as [row|];
    [eauto | discriminate].
Qed.

(** A row that passes the checks, slot by slot. *)
Lemma row_ok_slots (row : list BaseCellRotation.t) :
  row_ok row = true ->
  exists r0 r1 r2 r3 r4, row = [r0; r1; r2; r3; r4].
Proof.
  unfold row_ok. rewrite !andb_true_iff. intros [[[Hlen _] _] _].
  apply Z.eqb_eq in Hlen. unfold MAX_BASE_CELL_FACES in Hlen.
  destruct row as [|r0 [|r1 [|r2 [|r3 [|r4 [|r5 rest]]]]]];
    simpl length in Hlen; try lia.
  eauto 6.
Qed.

(** ** The resolver on a row of the table *)

Section ResolverFacts.
Context {lib : H3Lib}.

(** What [vertexRotations] computes for a cell whose base cell has a row in
    the table: the rotation of the first slot recording the cell's face,
    passed through the pentagon checks when the base cell is a pentagon. *)
Lemma vertexRotations_row (cell : H3Index) (row : list BaseCellRotation.t)
    (rIK rJK : BaseCellRotation.t) :
  index baseCellVertexRotations (h3GetBaseCell cell) = Some row ->
  index row (Z.of_N IK_AXES_DIGIT - 2) = Some rIK ->
  index row (Z.of_N JK_AXES_DIGIT - 2) = Some rJK ->
  vertexRotations cell =
  Some match first_slot row (FaceIJK.face (_h3ToFaceIjk cell)) with
       | None => INVALID_ROTATIONS
       | Some r =>
           if truthy (_isBaseCellPentagon (h3GetBaseCell cell))
           then crossing (Z.of_N (_h3LeadingNonZeroDigit cell))
                  (FaceIJK.face (_h3ToFaceIjk cell))
                  (BaseCellRotation.face rIK) (BaseCellRotation.face rJK)
                  (BaseCellRotation.ccwRot60 r)
           else BaseCellRotation.ccwRot60 r
       end.
Proof.
  intros Hrow HIK HJK.
  destruct (row_of_base_cell _ _ Hrow) as [_ Hok].
  destruct (row_ok_slots _ Hok) as (r0 & r1 & r2 & r3 & r4 & ->).
  cbv in HIK, HJK. injection HIK as <-. injection HJK as <-.
  unfold vertexRotations, first_slot, crossing.
  set (f := FaceIJK.face (_h3ToFaceIjk cell)).
  set (d := Z.of_N (_h3LeadingNonZeroDigit cell)).
  set (p := truthy (_isBaseCellPentagon (h3GetBaseCell cell))).
  change (indexes 0 (Z.to_nat MAX_BASE_CELL_FACES)) with [0; 1; 2; 3; 4].
  unfold vertexRotations_loop, baseCellVertexRotations_at.
  rewrite Hrow. cbn [bind].
  change (index [r0; r1; r2; r3; r4] 0) with (Some r0).
  change (index [r0; r1; r2; r3; r4] 1) with (Some r1).
  change (index [r0; r1; r2; r3; r4] 2) with (Some r2).
  change (index [r0; r1; r2; r3; r4] 3) with (Some r3).
  change (index [r0; r1; r2; r3; r4] 4) with (Some r4).
  change (index [r0; r1; r2; r3; r4] (Z.of_N IK_AXES_DIGIT - 2))
    with (Some r3).
  change (index [r0; r1; r2; r3; r4] (Z.of_N JK_AXES_DIGIT - 2))
    with (Some r1).
  fold p. cbn [bind find].
  assert (Hbranch : forall r : BaseCellRotation.t,
    (if p
     then jkToIk <- and_then (d =? Z.of_N JK_AXES_DIGIT)
                      (Some (f =? BaseCellRotation.face r3)) ;;
          if jkToIk
          then Some (if BaseCellRotation.ccwRot60 r =? 0 then 5
                     else BaseCellRotation.ccwRot60 r - 1)
          else ikToJ <- and_then (d =? Z.of_N IK_AXES_DIGIT)
                          (Some (f =? BaseCellRotation.face r1)) ;;
               if ikToJ
               then Some (Z.rem (BaseCellRotation.ccwRot60 r + 1) 6)
               else Some (BaseCellRotation.ccwRot60 r)
     else Some (BaseCellRotation.ccwRot60 r))
    = Some (if p
            then if (d =? Z.of_N JK_AXES_DIGIT)
                    && (f =? BaseCellRotation.face r3)
                 then (if BaseCellRotation.ccwRot60 r =? 0 then 5
                       else BaseCellRotation.ccwRot60 r - 1)
                 else if (d =? Z.of_N IK_AXES_DIGIT)
                         && (f =? BaseCellRotation.face r1)
                 then Z.rem (BaseCellRotation.ccwRot60 r + 1) 6
                 else BaseCellRotation.ccwRot60 r
            else BaseCellRotation.ccwRot60 r)).
  { intros r. destruct p; [|reflexivity].
    destruct (d =? Z.of_N JK_AXES_DIGIT); cbn [and_then bind andb].
    - destruct (f =? BaseCellRotation.face r3); [reflexivity|].
      destruct (d =? Z.of_N IK_AXES_DIGIT); cbn [and_then bind andb];
        [destruct (f =? BaseCellRotation.face r1)|]; reflexivity.
    - destruct (d =? Z.of_N IK_AXES_DIGIT); cbn [and_then bind andb];
        [destruct (f =? BaseCellRotation.face r1)|]; reflexivity. }
  rewrite !Hbranch. clear Hbranch. subst f.
  set (f := FaceIJK.face (_h3ToFaceIjk cell)).
  destruct (BaseCellRotation.face r0 =? f); [reflexivity|].
  destruct (BaseCellRotation.face r1 =? f); [reflexivity|].
  destruct (BaseCellRotation.face r2 =? f); [reflexivity|].
  destruct (BaseCellRotation.face r3 =? f); [reflexivity|].
  destruct (BaseCellRotation.face r4 =? f); reflexivity.
Qed.

End ResolverFacts.

(** ** Rows that pass the checks *)

Lemma row_ok_rotation (row : list BaseCellRotation.t)
    (r : BaseCellRotation.t) :
  row_ok row = true -> In r row -> 0 <= BaseCellRotation.ccwRot60 r <= 5.
Proof.
  unfold row_ok. rewrite !andb_true_iff. intros [[[_ Hrot] _] _] Hin.
  rewrite forallb_forall in Hrot. specialize (Hrot r Hin).
  unfold rotation_in_range in Hrot. apply andb_true_iff in Hrot. lia.
Qed.

Lemma row_ok_agree (row : list BaseCellRotation.t)
    (r s : BaseCellRotation.t) :
  row_ok row = true -> In r row -> In s row ->
  BaseCellRotation.face r = BaseCellRotation.face s ->
  BaseCellRotation.ccwRot60 r = BaseCellRotation.ccwRot60 s.
Proof.
  unfold row_ok. rewrite !andb_true_iff. intros [[_ Hag] _] Hr Hs Hf.
  rewrite forallb_forall in Hag. specialize (Hag r Hr).
  rewrite forallb_forall in Hag. specialize (Hag s Hs).
  unfold agree in Hag. apply orb_true_iff in Hag. destruct Hag as [Hne|Heq].
  - apply negb_true_iff, Z.eqb_neq in Hne. contradiction.
  - apply Z.eqb_eq. exact Heq.
Qed.

Lemma row_ok_checked_slots (row : list BaseCellRotation.t) :
  row_ok row = true ->
  exists rIK rJK,
    index row (Z.of_N IK_AXES_DIGIT - 2) = Some rIK
    /\ index row (Z.of_N JK_AXES_DIGIT - 2) = Some rJK
    /\ BaseCellRotation.face rIK <> BaseCellRotation.face rJK.
Proof.
  unfold row_ok. rewrite !andb_true_iff. intros [_ H].
  destruct (index row (Z.of_N IK_AXES_DIGIT - 2)) as [a|]; [|discriminate].
  destruct (index row (Z.of_N JK_AXES_DIGIT - 2)) as [b|]; [|discriminate].
  exists a, b. repeat split.
  apply negb_true_iff, Z.eqb_neq in H. exact H.
Qed.

Lemma first_slot_Some (row : list BaseCellRotation.t) (f : Z)
    (r : BaseCellRotation.t) :
  first_slot row f = Some r -> In r row /\ BaseCellRotation.face r = f.
Proof.
  unfold first_slot. intros H. apply find_some in H.
  destruct H as [Hin Hf]. apply Z.eqb_eq in Hf. auto.
Qed.

Lemma first_slot_None (row : list BaseCellRotation.t) (f : Z) :
  first_slot row f = None <->
  (forall r, In r row -> BaseCellRotation.face r <> f).
Proof.
  unfold first_slot. split.
  - intros H r Hin. apply Z.eqb_neq. exact (find_none _ _ H r Hin).
  - intros H. destruct (find _ row) as [r|] eqn:E; [|reflexivity].
    apply find_some in E. destruct E as [Hin Hf]. apply Z.eqb_eq in Hf.
    elim (H r Hin Hf).
Qed.

Lemma crossing_range (d f fIK fJK rot : Z) :
  0 <= rot <= 5 -> 0 <= crossing d f fIK fJK rot <= 5.
Proof.
  intros H. unfold crossing.
  destruct ((d =? Z.of_N JK_AXES_DIGIT) && (f =? fIK)).
  - destruct (rot =? 0) eqn:E; [lia|]. apply Z.eqb_neq in E. lia.
  - destruct ((d =? Z.of_N IK_AXES_DIGIT) && (f =? fJK)); [|lia].
    assert (Hr : 0 <= Z.rem (rot + 1) 6 < 6) by (apply Z.rem_bound_pos; lia).
    lia.
Qed.

Lemma of_N_eqb (a b : N) : (Z.of_N a =? Z.of_N b) = (a =? b)%N.
Proof.
  destruct (N.eqb_spec a b) as [->|Hne].
  - apply Z.eqb_refl.
  - apply Z.eqb_neq. lia.
Qed.

Lemma rotation_rem_mod (rot : Z) :
  0 <= rot -> Z.rem (rot + 1) 6 = (rot + 1) mod 6.
Proof. intros H. apply Z.rem_mod_nonneg; lia. Qed.

Lemma rotatedVertexNum_mod (canonical numVerts rotations : Z) :
  0 < numVerts -> 0 <= canonical + numVerts - rotations ->
  rotatedVertexNum canonical numVerts rotations
  = (canonical + numVerts - rotations) mod numVerts.
Proof. intros H1 H2. unfold rotatedVertexNum. apply Z.rem_mod_nonneg; lia. Qed.

Section ResolverCases.
Context {lib : H3Lib}.

(** A result of [vertexRotations] comes from a base cell of the table. *)
Lemma vertexRotations_defined (cell : H3Index) (v : Z) :
  vertexRotations cell = Some v -> 0 <= h3GetBaseCell cell < NUM_BASE_CELLS.
Proof.
  unfold vertexRotations.
  change (indexes 0 (Z.to_nat MAX_BASE_CELL_FACES)) with [0; 1; 2; 3; 4].
  unfold vertexRotations_loop, baseCellVertexRotations_at.
  destruct (index baseCellVertexRotations (h3GetBaseCell cell)) as [row|] eqn:E.
  - intros _. apply (row_of_base_cell _ _ E).
  - discriminate.
Qed.

(** The two outcomes of [vertexRotations] on a base cell of the table. *)
Lemma vertexRotations_cases (cell : H3Index) :
  0 <= h3GetBaseCell cell < NUM_BASE_CELLS ->
  exists row v,
    index baseCellVertexRotations (h3GetBaseCell cell) = Some row
    /\ vertexRotations cell = Some v
    /\ ((v = INVALID_ROTATIONS
         /\ forall r, In r row ->
              BaseCellRotation.face r <> FaceIJK.face (_h3ToFaceIjk cell))
        \/ (0 <= v <= 5
            /\ exists r,
                 In r row
                 /\ BaseCellRotation.face r
                    = FaceIJK.face (_h3ToFaceIjk cell))).
Proof.
  intros Hb. destruct (base_cell_row _ Hb) as [row Hrow].
  destruct (row_of_base_cell _ _ Hrow) as [_ Hok].
  destruct (row_ok_checked_slots _ Hok) as (rIK & rJK & HIK & HJK & _).
  rewrite (vertexRotations_row cell row rIK rJK Hrow HIK HJK).
  destruct (first_slot row (FaceIJK.face (_h3ToFaceIjk cell))) as [r|] eqn:E.
  - apply first_slot_Some in E. destruct E as [Hin Hf].
    pose proof (row_ok_rotation _ _ Hok Hin) as Hrot.
    eexists row, _. split; [exact Hrow|]. split; [reflexivity|]. right.
    split; [|eauto].
    destruct (truthy _); [apply crossing_range|]; exact Hrot.
  - exists row, INVALID_ROTATIONS. split; [exact Hrow|].
    split; [reflexivity|]. left. split; [reflexivity|].
    apply first_slot_None. exact E.
Qed.

(** With a slot recording the cell's face, the result is a rotation. *)
Lemma vertexRotations_found (cell : H3Index) (n : Z)
    (r : BaseCellRotation.t) :
  baseCellVertexRotations_at (h3GetBaseCell cell) n = Some r ->
  BaseCellRotation.face r = FaceIJK.face (_h3ToFaceIjk cell) ->
  exists v, vertexRotations cell = Some v /\ 0 <= v <= 5.
Proof.
  intros Hat Hf. destruct (at_Some _ _ _ Hat) as (row & Hrow & Hn).
  destruct (row_of_base_cell _ _ Hrow) as [Hb _].
  destruct (vertexRotations_cases cell Hb) as (row' & v & Hrow' & Hv & Hc).
  rewrite Hrow in Hrow'. injection Hrow' as <-.
  exists v. split; [exact Hv|].
  destruct Hc as [[_ Hnone]|[Hr _]]; [|exact Hr].
  apply index_Some in Hn. destruct Hn as [_ Hin].
  elim (Hnone r Hin Hf).
Qed.

End ResolverCases.

(** ** The rotation resolver *)

Section ResolverClaims.
Context {lib : H3Lib}.

(** C1.  For a cell whose base cell is a pentagon and has a slot [n]
    recording the cell's face with rotation [baseRot]: when the leading digit
    is the JK axis and the face is the one of the slot indexed by the IK
    axis, [vertexRotations] returns [baseRot] rotated one step clockwise
    ([5] for [0], [baseRot - 1] otherwise); else when the leading digit is
    the IK axis and the face is the one of the slot indexed by the JK axis,
    it returns [(baseRot + 1) mod 6]; otherwise it returns [baseRot]. *)
Theorem vertexRotations_pentagon_crossing (cell : H3Index) (n baseRot : Z)
    (rIK rJK : BaseCellRotation.t) :
  truthy (_isBaseCellPentagon (h3GetBaseCell cell)) = true ->
  baseCellVertexRotations_at (h3GetBaseCell cell) n
  = Some (BaseCellRotation.mk (FaceIJK.face (_h3ToFaceIjk cell)) baseRot) ->
  baseCellVertexRotations_at (h3GetBaseCell cell) (Z.of_N IK_AXES_DIGIT - 2)
  = Some rIK ->
  baseCellVertexRotations_at (h3GetBaseCell cell) (Z.of_N JK_AXES_DIGIT - 2)
  = Some rJK ->
  vertexRotations cell =
  Some (if (_h3LeadingNonZeroDigit cell =? JK_AXES_DIGIT)%N
           && (FaceIJK.face (_h3ToFaceIjk cell) =? BaseCellRotation.face rIK)
        then (if baseRot =? 0 then 5 else baseRot - 1)
        else if (_h3LeadingNonZeroDigit cell =? IK_AXES_DIGIT)%N
                && (FaceIJK.face (_h3ToFaceIjk cell)
                    =? BaseCellRotation.face rJK)
        then (baseRot + 1) mod 6
        else baseRot).
Proof.
  intros Hp Hn HIK HJK.
  destruct (at_Some _ _ _ Hn) as (row & Hrow & Hslot).
  destruct (row_of_base_cell _ _ Hrow) as [_ Hok].
  unfold baseCellVertexRotations_at in HIK, HJK.
  rewrite Hrow in HIK, HJK. cbn [bind] in HIK, HJK.
  rewrite (vertexRotations_row cell row rIK rJK Hrow HIK HJK), Hp.
  apply index_Some in Hslot. destruct Hslot as [_ Hin].
  destruct (first_slot row (FaceIJK.face (_h3ToFaceIjk cell))) as [r|] eqn:E.
  - apply first_slot_Some in E. destruct E as [Hr Hf].
    assert (Hrot : BaseCellRotation.ccwRot60 r = baseRot).
    { apply (row_ok_agree row r _ Hok Hr Hin). exact Hf. }
    pose proof (row_ok_rotation _ _ Hok Hr) as Hrange.
    rewrite Hrot in *. unfold crossing.
    rewrite rotation_rem_mod by lia.
    rewrite !of_N_eqb. reflexivity.
  - rewrite first_slot_None in E. elim (E _ Hin). reflexivity.
Qed.

(** C6.  For every base cell and every slot of it that records a face (not
    the marker of an unused slot), a cell of that base cell lying on that
    face gets from [vertexRotations] a result in [0,5], never
    [INVALID_ROTATIONS]; and on every base cell of the table
    [vertexRotations] returns an integer in [0,5] or [INVALID_ROTATIONS]. *)
Theorem vertexRotations_result_range :
  (forall (baseCell n : Z) (r : BaseCellRotation.t) (cell : H3Index),
      baseCellVertexRotations_at baseCell n = Some r ->
      BaseCellRotation.face r <> -1 ->
      h3GetBaseCell cell = baseCell ->
      FaceIJK.face (_h3ToFaceIjk cell) = BaseCellRotation.face r ->
      exists v, vertexRotations cell = Some v
                /\ 0 <= v <= 5 /\ v <> INVALID_ROTATIONS)
  /\ (forall cell : H3Index,
         0 <= h3GetBaseCell cell < NUM_BASE_CELLS ->
         exists v, vertexRotations cell = Some v
                   /\ (0 <= v <= 5 \/ v = INVALID_ROTATIONS)).
Proof.
  split.
  - intros baseCell n r cell Hat _ <- Hf.
    destruct (vertexRotations_found cell n r Hat (eq_sym Hf)) as (v & Hv & Hr).
    exists v. unfold INVALID_ROTATIONS. repeat split; try assumption; lia.
  - intros cell Hb.
    destruct (vertexRotations_cases cell Hb) as (row & v & _ & Hv & Hc).
    exists v. split; [exact Hv|].
    destruct Hc as [[Hi _]|[Hr _]]; [right|left]; assumption.
Qed.

(** C7.  On a base cell of the table, [vertexRotations] returns
    [INVALID_ROTATIONS] exactly when no slot of the base cell records the
    cell's face; and when [vertexRotations] returns [INVALID_ROTATIONS],
    [vertexNumForDirection] returns [INVALID_VERTEX_NUM] for every
    direction, rejected or not. *)
Theorem invalid_rotations_iff_no_face (cell : H3Index) :
  (0 <= h3GetBaseCell cell < NUM_BASE_CELLS ->
   (vertexRotations cell = Some INVALID_ROTATIONS <->
    forall (n : Z) (r : BaseCellRotation.t),
      baseCellVertexRotations_at (h3GetBaseCell cell) n = Some r ->
      BaseCellRotation.face r <> FaceIJK.face (_h3ToFaceIjk cell)))
  /\ (vertexRotations cell = Some INVALID_ROTATIONS ->
      forall direction : Direction,
        vertexNumForDirection cell direction = Some INVALID_VERTEX_NUM).
Proof.
  split.
  - intros Hb.
    destruct (vertexRotations_cases cell Hb) as (row & v & Hrow & Hv & Hc).
    rewrite Hv. split.
    + intros Hinv n r Hat Hf. injection Hinv as ->.
      destruct Hc as [[_ Hnone]|[Hr _]];
        [|unfold INVALID_ROTATIONS in Hr; lia].
      destruct (at_Some _ _ _ Hat) as (row' & Hrow' & Hn).
      rewrite Hrow in Hrow'. injection Hrow' as <-.
      apply index_Some in Hn. exact (Hnone r (proj2 Hn) Hf).
    + intros Hno. destruct Hc as [[-> _]|[_ (r & Hin & Hf)]]; [reflexivity|].
      destruct (In_nth_error _ _ Hin) as [m Hm].
      elim (Hno (Z.of_nat m) r); [|exact Hf].
      unfold baseCellVertexRotations_at. rewrite Hrow. cbn [bind].
      unfold index. destruct (Z.of_nat m <? 0) eqn:E;
        [apply Z.ltb_lt in E; lia|].
      rewrite Nat2Z.id. exact Hm.
  - intros Hinv direction. unfold vertexNumForDirection. rewrite Hinv.
    cbn [bind]. rewrite Z.eqb_refl.
    destruct (_ || _ || _); reflexivity.
Qed.

(** C8.  For every pentagon base cell and every face, the two pentagon
    checks of [vertexRotations] exclude each other: the face is not at once
    the face of the slot indexed by the IK axis and the face of the slot
    indexed by the JK axis. *)
Theorem pentagon_crossings_exclusive (baseCell f : Z)
    (rIK rJK : BaseCellRotation.t) :
  truthy (_isBaseCellPentagon baseCell) = true ->
  baseCellVertexRotations_at baseCell (Z.of_N IK_AXES_DIGIT - 2) = Some rIK ->
  baseCellVertexRotations_at baseCell (Z.of_N JK_AXES_DIGIT - 2) = Some rJK ->
  ~ (f = BaseCellRotation.face rIK /\ f = BaseCellRotation.face rJK).
Proof.
  intros _ HIK HJK [H1 H2].
  destruct (at_Some _ _ _ HIK) as (row & Hrow & HsIK).
  destruct (at_Some _ _ _ HJK) as (row' & Hrow' & HsJK).
  rewrite Hrow in Hrow'. injection Hrow' as <-.
  destruct (row_of_base_cell _ _ Hrow) as [_ Hok].
  destruct (row_ok_checked_slots _ Hok) as (a & b & Ha & Hb & Hne).
  rewrite HsIK in Ha. rewrite HsJK in Hb.
  injection Ha as <-. injection Hb as <-.
  apply Hne. congruence.
Qed.

End ResolverClaims.

(** ** The direction-to-vertex mapper *)

Lemma rotatedVertexNum_range (canonical numVerts rotations : Z) :
  0 < numVerts -> 0 <= canonical + numVerts - rotations ->
  0 <= rotatedVertexNum canonical numVerts rotations < numVerts.
Proof.
  intros H1 H2. unfold rotatedVertexNum. apply Z.rem_bound_pos; lia.
Qed.

Lemma direction_cases (direction : Direction) :
  direction <> CENTER_DIGIT -> (direction < INVALID_DIGIT)%N ->
  direction = K_AXES_DIGIT \/ direction = J_AXES_DIGIT
  \/ direction = JK_AXES_DIGIT \/ direction = I_AXES_DIGIT
  \/ direction = IK_AXES_DIGIT \/ direction = IJ_AXES_DIGIT.
Proof.
  unfold CENTER_DIGIT, INVALID_DIGIT, K_AXES_DIGIT, J_AXES_DIGIT,
    JK_AXES_DIGIT, I_AXES_DIGIT, IK_AXES_DIGIT, IJ_AXES_DIGIT.
  lia.
Qed.

Section MapperFacts.
Context {lib : H3Lib}.

(** Past the check of the direction and with a rotation from the resolver,
    [vertexNumForDirection] reads the table of the cell's shape and rotates
    the entry: the entry [canonical] is a vertex number of that shape and
    the result is the mathematical remainder. *)
Lemma vertexNumForDirection_valid (origin : H3Index) (direction : Direction)
    (rotations : Z) :
  direction <> CENTER_DIGIT -> (direction < INVALID_DIGIT)%N ->
  ~ (truthy (h3IsPentagon origin) = true /\ direction = K_AXES_DIGIT) ->
  vertexRotations origin = Some rotations -> 0 <= rotations <= 5 ->
  exists canonical,
    at_direction (if truthy (h3IsPentagon origin)
                  then directionToVertexNumPent
                  else directionToVertexNumHex) direction = Some canonical
    /\ 0 <= canonical < (if truthy (h3IsPentagon origin)
                         then NUM_PENT_VERTS else NUM_HEX_VERTS)
    /\ vertexNumForDirection origin direction
       = Some (rotatedVertexNum canonical
                 (if truthy (h3IsPentagon origin)
                  then NUM_PENT_VERTS else NUM_HEX_VERTS) rotations).
Proof.
  intros Hc Hi Hk Hrot Hrange. unfold vertexNumForDirection. rewrite Hrot.
  cbn [bind].
  replace (rotations =? INVALID_ROTATIONS) with false
    by (symmetry; apply Z.eqb_neq; unfold INVALID_ROTATIONS; lia).
  replace (direction =? CENTER_DIGIT)%N with false
    by (symmetry; apply N.eqb_neq; exact Hc).
  replace (INVALID_DIGIT <=? direction)%N with false
    by (symmetry; apply N.leb_gt; exact Hi).
  destruct (truthy (h3IsPentagon origin)) eqn:Hp.
  - replace (direction =? K_AXES_DIGIT)%N with false
      by (symmetry; apply N.eqb_neq; intros E; apply Hk; auto).
    cbn [orb andb].
    destruct (direction_cases direction Hc Hi)
      as [E|[E|[E|[E|[E|E]]]]]; subst direction;
      [elim Hk; auto| | | | |];
      (eexists; split; [reflexivity|]; split; [cbv; intuition congruence|]);
      reflexivity.
  - cbn [orb andb].
    destruct (direction_cases direction Hc Hi)
      as [E|[E|[E|[E|[E|E]]]]]; subst direction;
      (eexists; split; [reflexivity|]; split; [cbv; intuition congruence|]);
      reflexivity.
Qed.

End MapperFacts.

Section MapperClaims.
Context {lib : H3Lib}.

(** C3, as amended.  [vertexNumForDirection] returns [INVALID_VERTEX_NUM]
    when the direction is the center, when its ordinal is [INVALID_DIGIT] or
    above, and when it is the K axis and the cell itself is a pentagon, as
    [h3IsPentagon] answers for the cell; whatever the face, the base cell
    and the leading digit of the cell are, so that neither the resolver nor
    the tables take part.  The check reads the flag of the cell, not the
    flag of its base cell. *)
Theorem vertexNumForDirection_rejects (origin : H3Index)
    (direction : Direction) :
  direction = CENTER_DIGIT
  \/ (INVALID_DIGIT <= direction)%N
  \/ (direction = K_AXES_DIGIT /\ truthy (h3IsPentagon origin) = true) ->
  vertexNumForDirection origin direction = Some INVALID_VERTEX_NUM.
Proof.
  unfold vertexNumForDirection.
  intros [H|[H|[H Hp]]].
  - subst direction. reflexivity.
  - apply N.leb_le in H. rewrite H. rewrite orb_true_r. reflexivity.
  - subst direction. rewrite Hp. reflexivity.
Qed.

(** C2.  With a slot of the base cell recording the cell's face:
    for a cell that is not a pentagon and each of the K, J, JK, I and IK
    axes, [vertexNumForDirection] returns an integer in [0,5]; for a
    pentagon and each of the J, JK, I and IK axes, an integer in [0,4]. *)
Theorem vertexNumForDirection_in_range (origin : H3Index) (n : Z)
    (r : BaseCellRotation.t) (direction : Direction) :
  baseCellVertexRotations_at (h3GetBaseCell origin) n = Some r ->
  BaseCellRotation.face r = FaceIJK.face (_h3ToFaceIjk origin) ->
  (truthy (h3IsPentagon origin) = false ->
   In direction [K_AXES_DIGIT; J_AXES_DIGIT; JK_AXES_DIGIT; I_AXES_DIGIT;
                 IK_AXES_DIGIT] ->
   exists v, vertexNumForDirection origin direction = Some v /\ 0 <= v <= 5)
  /\ (truthy (h3IsPentagon origin) = true ->
      In direction [J_AXES_DIGIT; JK_AXES_DIGIT; I_AXES_DIGIT;
                    IK_AXES_DIGIT] ->
      exists v, vertexNumForDirection origin direction = Some v
                /\ 0 <= v <= 4).
Proof.
  intros Hat Hf.
  destruct (vertexRotations_found origin n r Hat Hf) as (rot & Hrot & Hrange).
  split; intros Hp Hin.
  - assert (Hd : direction <> CENTER_DIGIT /\ (direction < INVALID_DIGIT)%N).
    { simpl in Hin. unfold CENTER_DIGIT, INVALID_DIGIT.
      destruct Hin as [<-|[<-|[<-|[<-|[<-|[]]]]]]; cbv; split; congruence. }
    destruct (vertexNumForDirection_valid origin direction rot
                (proj1 Hd) (proj2 Hd)) as (c & _ & Hc & Hv);
      [rewrite Hp; intros [? _]; discriminate | exact Hrot | exact Hrange |].
    rewrite Hp in Hc, Hv. eexists. split; [exact Hv|].
    pose proof (rotatedVertexNum_range c NUM_HEX_VERTS rot) as Hb.
    unfold NUM_HEX_VERTS in *. lia.
  - assert (Hd : direction <> CENTER_DIGIT /\ (direction < INVALID_DIGIT)%N
                 /\ direction <> K_AXES_DIGIT).
    { simpl in Hin. unfold CENTER_DIGIT, INVALID_DIGIT, K_AXES_DIGIT.
      destruct Hin as [<-|[<-|[<-|[<-|[]]]]]; cbv; repeat split; congruence. }
    destruct Hd as (Hd1 & Hd2 & Hd3).
    destruct (vertexNumForDirection_valid origin direction rot Hd1 Hd2)
      as (c & _ & Hc & Hv);
      [intros [_ ?]; contradiction | exact Hrot | exact Hrange |].
    rewrite Hp in Hc, Hv. eexists. split; [exact Hv|].
    pose proof (rotatedVertexNum_range c NUM_PENT_VERTS rot) as Hb.
    unfold NUM_PENT_VERTS in *. lia.
Qed.

(** C4.  The direction of ordinal 6, the IJ axis, is not rejected, for a
    hexagon as for a pentagon: with a slot of the base cell recording the
    cell's face, [vertexRotations] gives a rotation in [0,5] and
    [vertexNumForDirection] returns the canonical vertex 0 rotated by it,
    [(0 + 6 - rotations) mod 6] for a hexagon and [(0 + 5 - rotations) mod 5]
    for a pentagon, a vertex number of the cell and not
    [INVALID_VERTEX_NUM]. *)
Theorem vertexNumForDirection_ij_axis (origin : H3Index) (n : Z)
    (r : BaseCellRotation.t) :
  baseCellVertexRotations_at (h3GetBaseCell origin) n = Some r ->
  BaseCellRotation.face r = FaceIJK.face (_h3ToFaceIjk origin) ->
  exists rotations v,
    vertexRotations origin = Some rotations
    /\ 0 <= rotations <= 5
    /\ vertexNumForDirection origin IJ_AXES_DIGIT = Some v
    /\ v = (if truthy (h3IsPentagon origin)
            then (0 + 5 - rotations) mod 5
            else (0 + 6 - rotations) mod 6)
    /\ 0 <= v <= (if truthy (h3IsPentagon origin) then 4 else 5)
    /\ v <> INVALID_VERTEX_NUM.
Proof.
  intros Hat Hf.
  destruct (vertexRotations_found origin n r Hat Hf) as (rot & Hrot & Hrange).
  destruct (vertexNumForDirection_valid origin IJ_AXES_DIGIT rot)
    as (c & Hc & _ & Hv);
    [discriminate | reflexivity | intros [_ ?]; discriminate
    | exact Hrot | exact Hrange |].
  assert (Hc0 : c = 0).
  { destruct (truthy (h3IsPentagon origin)); cbv in Hc; congruence. }
  subst c. exists rot. eexists. split; [exact Hrot|].
  split; [exact Hrange|]. split; [exact Hv|].
  pose proof (rotatedVertexNum_mod 0 NUM_HEX_VERTS rot) as Hhex.
  pose proof (rotatedVertexNum_mod 0 NUM_PENT_VERTS rot) as Hpent.
  pose proof (rotatedVertexNum_range 0 NUM_HEX_VERTS rot) as Rhex.
  pose proof (rotatedVertexNum_range 0 NUM_PENT_VERTS rot) as Rpent.
  unfold NUM_HEX_VERTS, NUM_PENT_VERTS, INVALID_VERTEX_NUM in *.
  destruct (truthy (h3IsPentagon origin)).
  - split; [apply Hpent; lia|]. lia.
  - split; [apply Hhex; lia|]. lia.
Qed.

(** C5.  For a direction that is not rejected and a resolver result
    [rotation] other than [INVALID_ROTATIONS], [vertexNumForDirection]
    returns [(canonicalVertex + modulus - rotation) mod modulus], with
    [canonicalVertex] the entry of the direction in the pentagon or hexagon
    table and [modulus] 5 for a pentagon, 6 for a hexagon; for a hexagon
    with rotation 0 the J axis gives the entry of the hexagon table for the
    J axis unchanged. *)
Theorem vertexNumForDirection_rotation (origin : H3Index) :
  (forall (direction : Direction) (rotation : Z),
      direction <> CENTER_DIGIT ->
      (direction < INVALID_DIGIT)%N ->
      ~ (truthy (h3IsPentagon origin) = true /\ direction = K_AXES_DIGIT) ->
      vertexRotations origin = Some rotation ->
      rotation <> INVALID_ROTATIONS ->
      exists canonicalVertex modulus,
        at_direction (if truthy (h3IsPentagon origin)
                      then directionToVertexNumPent
                      else directionToVertexNumHex) direction
        = Some canonicalVertex
        /\ modulus = (if truthy (h3IsPentagon origin)
                      then NUM_PENT_VERTS else NUM_HEX_VERTS)
        /\ vertexNumForDirection origin direction
           = Some ((canonicalVertex + modulus - rotation) mod modulus))
  /\ (truthy (h3IsPentagon origin) = false ->
      vertexRotations origin = Some 0 ->
      vertexNumForDirection origin J_AXES_DIGIT
      = at_direction directionToVertexNumHex J_AXES_DIGIT).
Proof.
  assert (Hrot : forall rotation, vertexRotations origin = Some rotation ->
                   rotation <> INVALID_ROTATIONS -> 0 <= rotation <= 5).
  { intros rotation Hv Hne.
    pose proof (vertexRotations_defined origin rotation Hv) as Hb.
    destruct (vertexRotations_cases origin Hb) as (row & v & _ & Hv' & Hc).
    rewrite Hv in Hv'. injection Hv' as <-.
    destruct Hc as [[Hi _]|[Hr _]]; [contradiction | exact Hr]. }
  split.
  - intros direction rotation Hc Hi Hk Hv Hne.
    specialize (Hrot rotation Hv Hne).
    destruct (vertexNumForDirection_valid origin direction rotation
                Hc Hi Hk Hv Hrot) as (c & Hat & Hcr & Hres).
    exists c. eexists. split; [exact Hat|]. split; [reflexivity|].
    rewrite Hres. f_equal. apply rotatedVertexNum_mod.
    + destruct (truthy (h3IsPentagon origin)); reflexivity.
    + unfold NUM_PENT_VERTS, NUM_HEX_VERTS in *.
      destruct (truthy (h3IsPentagon origin)); lia.
  - intros Hp Hv. unfold vertexNumForDirection. rewrite Hv, Hp. reflexivity.
Qed.

End MapperClaims.

(** C9.  For a canonical vertex number [v] in [0,5] and a rotation count [R]
    in [0,5], rotating [v] by [R] and then by [(6 - R) mod 6] with the
    arithmetic of the mapper gives [v] back. *)
Theorem rotatedVertexNum_round_trip (v R : Z) :
  0 <= v <= 5 -> 0 <= R <= 5 ->
  rotatedVertexNum (rotatedVertexNum v NUM_HEX_VERTS R) NUM_HEX_VERTS
    ((NUM_HEX_VERTS - R) mod NUM_HEX_VERTS) = v.
Proof.
  intros Hv HR. unfold rotatedVertexNum, NUM_HEX_VERTS.
  assert (Ev : v = 0 \/ v = 1 \/ v = 2 \/ v = 3 \/ v = 4 \/ v = 5) by lia.
  assert (ER : R = 0 \/ R = 1 \/ R = 2 \/ R = 3 \/ R = 4 \/ R = 5) by lia.
  destruct Ev as [->|[->|[->|[->|[->| ->]]]]];
    destruct ER as [->|[->|[->|[->|[->| ->]]]]]; reflexivity.
Qed.

(** ** The theorems at work on the sample library *)

Lemma vertexRotations_pentagon_crossing_witness :
  @vertexRotations Sample.lib (Sample.cell 1 4 3) = Some 1
  /\ @vertexRotations Sample.lib (Sample.cell 0 4 5) = Some 1
  /\ @vertexRotations Sample.lib (Sample.cell 2 4 3) = Some 3.
Proof.
  split; [|split].
  - exact (@vertexRotations_pentagon_crossing Sample.lib (Sample.cell 1 4 3)
             3 2 (R 1 2) (R 0 0) eq_refl eq_refl eq_refl eq_refl).
  - exact (@vertexRotations_pentagon_crossing Sample.lib (Sample.cell 0 4 5)
             1 0 (R 1 2) (R 0 0) eq_refl eq_refl eq_refl eq_refl).
  - exact (@vertexRotations_pentagon_crossing Sample.lib (Sample.cell 2 4 3)
             2 3 (R 1 2) (R 0 0) eq_refl eq_refl eq_refl eq_refl).
Defined.

Lemma vertexRotations_result_range_witness :
  (exists v, @vertexRotations Sample.lib (Sample.cell 6 2 0) = Some v
             /\ 0 <= v <= 5 /\ v <> INVALID_ROTATIONS)
  /\ (exists v, @vertexRotations Sample.lib (Sample.cell 7 2 0) = Some v
                /\ (0 <= v <= 5 \/ v = INVALID_ROTATIONS)).
Proof.
  destruct (@vertexRotations_result_range Sample.lib) as [H1 H2]. split.
  - apply (H1 2 3 (R 6 3) (Sample.cell 6 2 0));
      [reflexivity | simpl; lia | reflexivity | reflexivity].
  - apply (H2 (Sample.cell 7 2 0)). vm_compute.
    split; [discriminate | reflexivity].
Defined.

Lemma invalid_rotations_iff_no_face_witness :
  (@vertexRotations Sample.lib (Sample.cell 7 2 0) = Some INVALID_ROTATIONS
   <-> forall (n : Z) (r : BaseCellRotation.t),
         baseCellVertexRotations_at 2 n = Some r ->
         BaseCellRotation.face r <> 7)
  /\ (forall direction : Direction,
         @vertexNumForDirection Sample.lib (Sample.cell 7 2 0) direction
         = Some INVALID_VERTEX_NUM).
Proof.
  destruct (@invalid_rotations_iff_no_face Sample.lib (Sample.cell 7 2 0))
    as [H1 H2].
  split.
  - apply H1. vm_compute. split; [discriminate | reflexivity].
  - apply H2. reflexivity.
Defined.

Lemma pentagon_crossings_exclusive_witness : ~ (1 = 1 /\ 1 = 0).
Proof.
  exact (@pentagon_crossings_exclusive Sample.lib 4 1 (R 1 2) (R 0 0)
           eq_refl eq_refl eq_refl).
Defined.

Lemma vertexNumForDirection_rejects_witness :
  @vertexRotations Sample.lib (Sample.cell 7 124 0) = None
  /\ @vertexNumForDirection Sample.lib (Sample.cell 7 124 0) CENTER_DIGIT
     = Some INVALID_VERTEX_NUM
  /\ @vertexNumForDirection Sample.lib (Sample.cell 6 2 0) 9%N
     = Some INVALID_VERTEX_NUM
  /\ @vertexNumForDirection Sample.lib (Sample.cell 0 4 0) K_AXES_DIGIT
     = Some INVALID_VERTEX_NUM
  /\ @vertexNumForDirection Sample.lib (Sample.cell 2 117 0) K_AXES_DIGIT
     = Some INVALID_VERTEX_NUM.
Proof.
  split; [reflexivity|].
  split; [|split; [|split]]; apply vertexNumForDirection_rejects.
  - left. reflexivity.
  - right. left. vm_compute. discriminate.
  - right. right. split; reflexivity.
  - right. right. split; reflexivity.
Defined.

(** C3, the clause of the claim that fails: a cell of a pentagon base cell
    need not be a pentagon.  On the sample library the cell on face 1 of
    base cell 4 with leading digit JK has a pentagon base cell while
    [h3IsPentagon] answers 0 for it; the K axis is not rejected and gives
    vertex 2, the entry 3 of the hexagon table turned by the rotation 1. *)
Lemma K_axis_on_pentagon_base_cell :
  truthy (@_isBaseCellPentagon Sample.lib
            (@h3GetBaseCell Sample.lib (Sample.cell 1 4 3))) = true
  /\ truthy (@h3IsPentagon Sample.lib (Sample.cell 1 4 3)) = false
  /\ @vertexRotations Sample.lib (Sample.cell 1 4 3) = Some 1
  /\ @vertexNumForDirection Sample.lib (Sample.cell 1 4 3) K_AXES_DIGIT
     = Some 2
  /\ @vertexNumForDirection Sample.lib (Sample.cell 1 4 3) K_AXES_DIGIT
     <> Some INVALID_VERTEX_NUM.
Proof.
  split; [reflexivity|]. split; [reflexivity|]. split; [reflexivity|].
  split; [reflexivity|]. vm_compute. discriminate.
Qed.

Lemma vertexNumForDirection_in_range_witness :
  (exists v, @vertexNumForDirection Sample.lib (Sample.cell 6 2 0)
               K_AXES_DIGIT = Some v /\ 0 <= v <= 5)
  /\ (exists v, @vertexNumForDirection Sample.lib (Sample.cell 1 4 0)
                  IK_AXES_DIGIT = Some v /\ 0 <= v <= 4).
Proof.
  split.
  - apply (proj1 (@vertexNumForDirection_in_range Sample.lib
                    (Sample.cell 6 2 0) 3 (R 6 3) K_AXES_DIGIT
                    eq_refl eq_refl)).
    + reflexivity.
    + simpl. auto.
  - apply (proj2 (@vertexNumForDirection_in_range Sample.lib
                    (Sample.cell 1 4 0) 3 (R 1 2) IK_AXES_DIGIT
                    eq_refl eq_refl)).
    + reflexivity.
    + simpl. auto.
Defined.

Lemma vertexNumForDirection_ij_axis_witness :
  exists rotations v,
    @vertexRotations Sample.lib (Sample.cell 1 4 0) = Some rotations
    /\ 0 <= rotations <= 5
    /\ @vertexNumForDirection Sample.lib (Sample.cell 1 4 0) IJ_AXES_DIGIT
       = Some v
    /\ v = (0 + 5 - rotations) mod 5
    /\ 0 <= v <= 4
    /\ v <> INVALID_VERTEX_NUM.
Proof.
  exact (@vertexNumForDirection_ij_axis Sample.lib (Sample.cell 1 4 0)
           3 (R 1 2) eq_refl eq_refl).
Defined.

Lemma vertexNumForDirection_rotation_witness :
  (exists canonicalVertex modulus,
      at_direction directionToVertexNumHex J_AXES_DIGIT = Some canonicalVertex
      /\ modulus = NUM_HEX_VERTS
      /\ @vertexNumForDirection Sample.lib (Sample.cell 6 2 0) J_AXES_DIGIT
         = Some ((canonicalVertex + modulus - 3) mod modulus))
  /\ @vertexNumForDirection Sample.lib (Sample.cell 1 0 0) J_AXES_DIGIT
     = Some 1.
Proof.
  split.
  - apply (proj1 (@vertexNumForDirection_rotation Sample.lib
                    (Sample.cell 6 2 0)) J_AXES_DIGIT 3).
    + discriminate.
    + reflexivity.
    + intros [H _]. discriminate H.
    + reflexivity.
    + discriminate.
  - apply (proj2 (@vertexNumForDirection_rotation Sample.lib
                    (Sample.cell 1 0 0))); reflexivity.
Defined.

Lemma rotatedVertexNum_round_trip_witness :
  rotatedVertexNum (rotatedVertexNum 3 NUM_HEX_VERTS 2) NUM_HEX_VERTS 4 = 3.
Proof.
  apply (rotatedVertexNum_round_trip 3 2); lia.
Defined.

(** ** More on the table *)

Lemma table_rows_shape_ok :
  forallb row_shape_ok baseCellVertexRotations = true.
Proof. vm_compute. reflexivity. Qed.

Lemma row_shape_of_base_cell (baseCell : Z)
    (row : list BaseCellRotation.t) :
  index baseCellVertexRotations baseCell = Some row ->
  row_shape_ok row = true.
Proof.
  intros H. apply index_Some in H. destruct H as [_ Hin].
  pose proof table_rows_shape_ok as Hall.
  rewrite forallb_forall in Hall. apply Hall. exact Hin.
Qed.

Lemma index_nth {A : Type} (a : list A) (n : Z) (x : A) :
  index a n = Some x -> 0 <= n /\ nth_error a (Z.to_nat n) = Some x.
Proof.
  unfold index. destruct (n <? 0) eqn:E; [discriminate|].
  apply Z.ltb_ge in E. auto.
Qed.

Lemma unused_iff (r : BaseCellRotation.t) :
  unused r = true <-> BaseCellRotation.face r = -1.
Proof. unfold unused. apply Z.eqb_eq. Qed.

Lemma unused_trail_nth (row : list BaseCellRotation.t) :
  unused_trail row = true ->
  forall (n m : nat) (r s : BaseCellRotation.t),
    nth_error row n = Some r -> nth_error row m = Some s ->
    (n <= m)%nat -> unused r = true -> unused s = true.
Proof.
  induction row as [|x rest IH]; intros Ht n m r s Hn Hm Hle Hu.
  - destruct n; discriminate.
  - cbn [unused_trail] in Ht. apply andb_true_iff in Ht.
    destruct Ht as [Hx Hrest].
    destruct n as [|n].
    + injection Hn as ->. destruct m as [|m].
      * injection Hm as ->. exact Hu.
      * rewrite Hu in Hx. rewrite forallb_forall in Hx.
        apply Hx. eapply nth_error_In. exact Hm.
    + destruct m as [|m]; [lia|].
      apply (IH Hrest n m r s Hn Hm); [lia | exact Hu].
Qed.

Lemma faces_distinct_head (x : BaseCellRotation.t)
    (rest : list BaseCellRotation.t) (s : BaseCellRotation.t) :
  faces_distinct (x :: rest) = true -> unused x = false -> In s rest ->
  BaseCellRotation.face s <> BaseCellRotation.face x.
Proof.
  cbn [faces_distinct]. intros Hd Hx Hin Heq.
  apply andb_true_iff in Hd. destruct Hd as [Hd _].
  rewrite Hx in Hd. cbn [orb] in Hd. apply negb_true_iff in Hd.
  assert (Hex : existsb (fun t => BaseCellRotation.face t
                                  =? BaseCellRotation.face x) rest = true).
  { apply existsb_exists. exists s. split; [exact Hin|].
    apply Z.eqb_eq. exact Heq. }
  congruence.
Qed.

Lemma faces_distinct_nth (row : list BaseCellRotation.t) :
  faces_distinct row = true ->
  forall (n m : nat) (r s : BaseCellRotation.t),
    nth_error row n = Some r -> nth_error row m = Some s ->
    unused r = false ->
    BaseCellRotation.face r = BaseCellRotation.face s -> n = m.
Proof.
  induction row as [|x rest IH]; intros Hd n m r s Hn Hm Hu Hf.
  - destruct n; discriminate.
  - assert (Hus : unused s = false).
    { unfold unused in *. rewrite <- Hf. exact Hu. }
    destruct n as [|n], m as [|m]; [reflexivity | | |].
    + injection Hn as ->. exfalso.
      apply (faces_distinct_head r rest s Hd Hu);
        [eapply nth_error_In; exact Hm | congruence].
    + injection Hm as ->. exfalso.
      apply (faces_distinct_head s rest r Hd Hus);
        [eapply nth_error_In; exact Hn | congruence].
    + f_equal. cbn [faces_distinct] in Hd. apply andb_true_iff in Hd.
      apply (IH (proj2 Hd) n m r s Hn Hm Hu Hf).
Qed.

(** X1.  What a slot of the table holds: a face of the icosahedron with a
    rotation in [0,5], or the marker [-1] of an unused slot with rotation 0;
    the first two slots of a base cell are never unused. *)
Theorem table_slot_contents (baseCell n : Z) (r : BaseCellRotation.t) :
  baseCellVertexRotations_at baseCell n = Some r ->
  0 <= BaseCellRotation.ccwRot60 r <= 5
  /\ ((0 <= BaseCellRotation.face r < NUM_ICOSA_FACES)
      \/ (BaseCellRotation.face r = -1
          /\ BaseCellRotation.ccwRot60 r = 0 /\ 2 <= n)).
Proof.
  intros Hat. destruct (at_Some _ _ _ Hat) as (row & Hrow & Hn).
  destruct (row_of_base_cell _ _ Hrow) as [_ Hok].
  pose proof (row_shape_of_base_cell _ _ Hrow) as Hshape.
  pose proof (index_Some _ _ _ Hn) as [_ Hin].
  split; [exact (row_ok_rotation _ _ Hok Hin)|].
  unfold row_shape_ok in Hshape. rewrite !andb_true_iff in Hshape.
  destruct Hshape as [[[[Hface Hzero] _] _] Hfirst].
  rewrite forallb_forall in Hface, Hzero.
  specialize (Hface r Hin). specialize (Hzero r Hin).
  unfold face_in_range in Hface. unfold unused_rotation_zero in Hzero.
  destruct (unused r) eqn:Hu.
  - right. apply unused_iff in Hu. split; [exact Hu|].
    cbn [negb orb] in Hzero. apply Z.eqb_eq in Hzero. split; [exact Hzero|].
    destruct (index_nth _ _ _ Hn) as [Hn0 Hnth].
    destruct row as [|r0 [|r1 rest]]; try discriminate.
    apply andb_true_iff in Hfirst. destruct Hfirst as [H0 H1].
    apply negb_true_iff in H0, H1.
    assert (En : n = 0 \/ n = 1 \/ 2 <= n) by lia.
    destruct En as [->|[->|En]]; [| |exact En];
      cbn in Hnth; injection Hnth as <-;
      unfold unused in *; apply Z.eqb_neq in H0, H1; contradiction.
  - left. cbn [orb] in Hface. apply andb_true_iff in Hface.
    unfold NUM_ICOSA_FACES in *. lia.
Qed.

(** X2.  The unused slots of a base cell come last: after an unused slot
    every slot is unused. *)
Theorem table_unused_slots_last (baseCell n m : Z)
    (r s : BaseCellRotation.t) :
  baseCellVertexRotations_at baseCell n = Some r ->
  baseCellVertexRotations_at baseCell m = Some s ->
  BaseCellRotation.face r = -1 -> n <= m ->
  BaseCellRotation.face s = -1.
Proof.
  intros Hn Hm Hf Hle.
  destruct (at_Some _ _ _ Hn) as (row & Hrow & Hsn).
  destruct (at_Some _ _ _ Hm) as (row' & Hrow' & Hsm).
  rewrite Hrow in Hrow'. injection Hrow' as <-.
  pose proof (row_shape_of_base_cell _ _ Hrow) as Hshape.
  unfold row_shape_ok in Hshape. rewrite !andb_true_iff in Hshape.
  destruct Hshape as [[[[_ _] Htrail] _] _].
  destruct (index_nth _ _ _ Hsn) as [Hn0 Hnn].
  destruct (index_nth _ _ _ Hsm) as [Hm0 Hnm].
  apply unused_iff.
  apply (unused_trail_nth row Htrail _ _ r s Hnn Hnm); [lia|].
  apply unused_iff. exact Hf.
Qed.

(** X3.  A base cell records a face in one slot at most: two slots of a
    base cell with the same face, other than the marker of an unused slot,
    are the same slot. *)
Theorem table_face_slot_unique (baseCell n m : Z)
    (r s : BaseCellRotation.t) :
  baseCellVertexRotations_at baseCell n = Some r ->
  baseCellVertexRotations_at baseCell m = Some s ->
  BaseCellRotation.face r <> -1 ->
  BaseCellRotation.face r = BaseCellRotation.face s ->
  n = m.
Proof.
  intros Hn Hm Hu Hf.
  destruct (at_Some _ _ _ Hn) as (row & Hrow & Hsn).
  destruct (at_Some _ _ _ Hm) as (row' & Hrow' & Hsm).
  rewrite Hrow in Hrow'. injection Hrow' as <-.
  pose proof (row_shape_of_base_cell _ _ Hrow) as Hshape.
  unfold row_shape_ok in Hshape. rewrite !andb_true_iff in Hshape.
  destruct Hshape as [[_ Hdist] _].
  destruct (index_nth _ _ _ Hsn) as [Hn0 Hnn].
  destruct (index_nth _ _ _ Hsm) as [Hm0 Hnm].
  assert (E : Z.to_nat n = Z.to_nat m).
  { apply (faces_distinct_nth row Hdist _ _ r s Hnn Hnm); [|exact Hf].
    unfold unused. apply Z.eqb_neq. exact Hu. }
  lia.
Qed.

(** ** More on the rotation resolver *)

Section ResolverExtras.
Context {lib : H3Lib}.

(** One turn of the loop on a base cell of the table. *)
Lemma vertexRotations_loop_step (cell : H3Index)
    (row : list BaseCellRotation.t) (rIK rJK : BaseCellRotation.t)
    (n : Z) (rest : list Z) :
  index baseCellVertexRotations (h3GetBaseCell cell) = Some row ->
  index row (Z.of_N IK_AXES_DIGIT - 2) = Some rIK ->
  index row (Z.of_N JK_AXES_DIGIT - 2) = Some rJK ->
  vertexRotations_loop (_h3ToFaceIjk cell) (h3GetBaseCell cell)
    (Z.of_N (_h3LeadingNonZeroDigit cell)) (n :: rest)
  = match index row n with
    | None => None
    | Some r =>
        if BaseCellRotation.face r =? FaceIJK.face (_h3ToFaceIjk cell)
        then Some (corrected cell (BaseCellRotation.face rIK)
                     (BaseCellRotation.face rJK) r)
        else vertexRotations_loop (_h3ToFaceIjk cell) (h3GetBaseCell cell)
               (Z.of_N (_h3LeadingNonZeroDigit cell)) rest
    end.
Proof.
  intros Hrow HIK HJK. cbn [vertexRotations_loop].
  unfold baseCellVertexRotations_at. rewrite Hrow. cbn [bind].
  rewrite HIK, HJK. cbn [bind].
  destruct (index row n) as [r|]; [|reflexivity]. cbn [bind].
  destruct (BaseCellRotation.face r =? FaceIJK.face (_h3ToFaceIjk cell));
    [|reflexivity].
  unfold corrected, crossing.
  destruct (truthy (_isBaseCellPentagon (h3GetBaseCell cell)));
    [|reflexivity].
  destruct (Z.of_N (_h3LeadingNonZeroDigit cell) =? Z.of_N JK_AXES_DIGIT);
    cbn [and_then bind andb].
  - destruct (FaceIJK.face (_h3ToFaceIjk cell) =? BaseCellRotation.face rIK);
      [reflexivity|].
    destruct (Z.of_N (_h3LeadingNonZeroDigit cell) =? Z.of_N IK_AXES_DIGIT);
      cbn [and_then bind andb]; [|reflexivity].
    destruct (FaceIJK.face (_h3ToFaceIjk cell) =? BaseCellRotation.face rJK);
      reflexivity.
  - destruct (Z.of_N (_h3LeadingNonZeroDigit cell) =? Z.of_N IK_AXES_DIGIT);
      cbn [and_then bind andb]; [|reflexivity].
    destruct (FaceIJK.face (_h3ToFaceIjk cell) =? BaseCellRotation.face rJK);
      reflexivity.
Qed.

(** The loop over any indexes of the row: it fails when none of them is a
    slot recording the cell's face and returns the corrected rotation of
    such a slot otherwise. *)
Lemma vertexRotations_loop_row (cell : H3Index)
    (row : list BaseCellRotation.t) (rIK rJK : BaseCellRotation.t)
    (idxs : list Z) :
  index baseCellVertexRotations (h3GetBaseCell cell) = Some row ->
  index row (Z.of_N IK_AXES_DIGIT - 2) = Some rIK ->
  index row (Z.of_N JK_AXES_DIGIT - 2) = Some rJK ->
  (forall n, In n idxs -> exists r, index row n = Some r) ->
  (vertexRotations_loop (_h3ToFaceIjk cell) (h3GetBaseCell cell)
     (Z.of_N (_h3LeadingNonZeroDigit cell)) idxs = Some INVALID_ROTATIONS
   /\ forall n r, In n idxs -> index row n = Some r ->
        BaseCellRotation.face r <> FaceIJK.face (_h3ToFaceIjk cell))
  \/ (exists n r,
         In n idxs /\ index row n = Some r
         /\ BaseCellRotation.face r = FaceIJK.face (_h3ToFaceIjk cell)
         /\ vertexRotations_loop (_h3ToFaceIjk cell) (h3GetBaseCell cell)
              (Z.of_N (_h3LeadingNonZeroDigit cell)) idxs
            = Some (corrected cell (BaseCellRotation.face rIK)
                      (BaseCellRotation.face rJK) r)).
Proof.
  intros Hrow HIK HJK. induction idxs as [|n rest IH]; intros Hall.
  - left. split; [reflexivity|]. intros n r [].
  - rewrite (vertexRotations_loop_step cell row rIK rJK n rest Hrow HIK HJK).
    destruct (Hall n (or_introl eq_refl)) as [r Hr]. rewrite Hr.
    destruct (BaseCellRotation.face r =? FaceIJK.face (_h3ToFaceIjk cell))
      eqn:E.
    + right. exists n, r. apply Z.eqb_eq in E.
      split; [left; reflexivity|]. auto.
    + apply Z.eqb_neq in E.
      destruct IH as [[Hinv Hnone]|(m & s & Hin & Hm & Hf & Hres)].
      * intros m Hm. apply Hall. right. exact Hm.
      * left. split; [exact Hinv|].
        intros m s [<-|Hin] Hm; [congruence | eauto].
      * right. exists m, s. split; [right; exact Hin|]. auto.
Qed.

(** X4.  [vertexRotations] reads inside the table exactly when the base
    cell is one of [0 .. NUM_BASE_CELLS - 1]: it then returns a value, and
    for every other base cell its first read is out of bounds. *)
Theorem vertexRotations_defined_iff (cell : H3Index) :
  (exists v, vertexRotations cell = Some v)
  <-> 0 <= h3GetBaseCell cell < NUM_BASE_CELLS.
Proof.
  split.
  - intros [v Hv]. exact (vertexRotations_defined cell v Hv).
  - intros Hb.
    destruct (vertexRotations_cases cell Hb) as (row & v & _ & Hv & _).
    exists v. exact Hv.
Qed.

(** X5.  On a base cell that is not a pentagon [vertexRotations] returns
    the rotation recorded with the cell's face, whatever the leading digit
    of the cell. *)
Theorem vertexRotations_not_pentagon (cell : H3Index) (n : Z)
    (r : BaseCellRotation.t) :
  truthy (_isBaseCellPentagon (h3GetBaseCell cell)) = false ->
  baseCellVertexRotations_at (h3GetBaseCell cell) n = Some r ->
  BaseCellRotation.face r = FaceIJK.face (_h3ToFaceIjk cell) ->
  vertexRotations cell = Some (BaseCellRotation.ccwRot60 r).
Proof.
  intros Hp Hat Hf. destruct (at_Some _ _ _ Hat) as (row & Hrow & Hn).
  destruct (row_of_base_cell _ _ Hrow) as [_ Hok].
  destruct (row_ok_checked_slots _ Hok) as (rIK & rJK & HIK & HJK & _).
  rewrite (vertexRotations_row cell row rIK rJK Hrow HIK HJK), Hp.
  apply index_Some in Hn. destruct Hn as [_ Hin].
  destruct (first_slot row (FaceIJK.face (_h3ToFaceIjk cell))) as [s|] eqn:E.
  - apply first_slot_Some in E. destruct E as [Hs Hfs]. f_equal.
    apply (row_ok_agree row s r Hok Hs Hin). congruence.
  - rewrite first_slot_None in E. elim (E r Hin Hf).
Qed.

(** X6.  On a pentagon base cell the corrected rotations depend on the base
    cell alone.  A cell with leading digit JK lying on the face of the slot
    indexed by the IK axis gets the rotation of that slot less one, modulo
    6; a cell with leading digit IK lying on the face of the slot indexed by
    the JK axis gets the rotation of that slot plus one, modulo 6. *)
Theorem vertexRotations_crossing_slots (cell : H3Index)
    (rIK rJK : BaseCellRotation.t) :
  truthy (_isBaseCellPentagon (h3GetBaseCell cell)) = true ->
  baseCellVertexRotations_at (h3GetBaseCell cell) (Z.of_N IK_AXES_DIGIT - 2)
  = Some rIK ->
  baseCellVertexRotations_at (h3GetBaseCell cell) (Z.of_N JK_AXES_DIGIT - 2)
  = Some rJK ->
  (_h3LeadingNonZeroDigit cell = JK_AXES_DIGIT ->
   FaceIJK.face (_h3ToFaceIjk cell) = BaseCellRotation.face rIK ->
   vertexRotations cell
   = Some ((BaseCellRotation.ccwRot60 rIK - 1) mod 6))
  /\ (_h3LeadingNonZeroDigit cell = IK_AXES_DIGIT ->
      FaceIJK.face (_h3ToFaceIjk cell) = BaseCellRotation.face rJK ->
      vertexRotations cell
      = Some ((BaseCellRotation.ccwRot60 rJK + 1) mod 6)).
Proof.
  intros Hp HIK HJK.
  destruct (at_Some _ _ _ HIK) as (row & Hrow & HsIK).
  destruct (at_Some _ _ _ HJK) as (row' & Hrow' & HsJK).
  rewrite Hrow in Hrow'. injection Hrow' as <-.
  destruct (row_of_base_cell _ _ Hrow) as [_ Hok].
  rewrite (vertexRotations_row cell row rIK rJK Hrow HsIK HsJK), Hp.
  pose proof (index_Some _ _ _ HsIK) as [_ HinIK].
  pose proof (index_Some _ _ _ HsJK) as [_ HinJK].
  split; intros Hd Hf.
  - destruct (first_slot row (FaceIJK.face (_h3ToFaceIjk cell)))
      as [s|] eqn:E.
    + apply first_slot_Some in E. destruct E as [Hs Hfs].
      assert (Hrot : BaseCellRotation.ccwRot60 s
                     = BaseCellRotation.ccwRot60 rIK).
      { apply (row_ok_agree row s rIK Hok Hs HinIK). congruence. }
      pose proof (row_ok_rotation _ _ Hok HinIK) as Hrange.
      unfold crossing. rewrite Hd, Hf, Hrot, !Z.eqb_refl. cbn [andb].
      f_equal. destruct (BaseCellRotation.ccwRot60 rIK =? 0) eqn:E0.
      * apply Z.eqb_eq in E0. rewrite E0. reflexivity.
      * apply Z.eqb_neq in E0. symmetry. apply Z.mod_small. lia.
    + rewrite first_slot_None in E. elim (E rIK HinIK). congruence.
  - destruct (first_slot row (FaceIJK.face (_h3ToFaceIjk cell)))
      as [s|] eqn:E.
    + apply first_slot_Some in E. destruct E as [Hs Hfs].
      assert (Hrot : BaseCellRotation.ccwRot60 s
                     = BaseCellRotation.ccwRot60 rJK).
      { apply (row_ok_agree row s rJK Hok Hs HinJK). congruence. }
      pose proof (row_ok_rotation _ _ Hok HinJK) as Hrange.
      unfold crossing. rewrite Hd, Hf, Hrot, !Z.eqb_refl.
      change (Z.of_N IK_AXES_DIGIT =? Z.of_N JK_AXES_DIGIT) with false.
      cbn [andb]. f_equal. apply rotation_rem_mod. lia.
    + rewrite first_slot_None in E. elim (E rJK HinJK). congruence.
Qed.

(** X7.  The marker of an unused slot is compared like a face: for a cell
    reported on face [-1], on a base cell that is not a pentagon and has an
    unused slot, [vertexRotations] returns the rotation 0 and not
    [INVALID_ROTATIONS]. *)
Theorem vertexRotations_unused_marker (cell : H3Index) (n : Z)
    (r : BaseCellRotation.t) :
  truthy (_isBaseCellPentagon (h3GetBaseCell cell)) = false ->
  baseCellVertexRotations_at (h3GetBaseCell cell) n = Some r ->
  BaseCellRotation.face r = -1 ->
  FaceIJK.face (_h3ToFaceIjk cell) = -1 ->
  vertexRotations cell = Some 0.
Proof.
  intros Hp Hat Hr Hf. destruct (at_Some _ _ _ Hat) as (row & Hrow & Hn).
  destruct (row_of_base_cell _ _ Hrow) as [_ Hok].
  pose proof (row_shape_of_base_cell _ _ Hrow) as Hshape.
  destruct (row_ok_checked_slots _ Hok) as (rIK & rJK & HIK & HJK & _).
  rewrite (vertexRotations_row cell row rIK rJK Hrow HIK HJK), Hp.
  apply index_Some in Hn. destruct Hn as [_ Hin].
  assert (Hzero : forall s, In s row -> BaseCellRotation.face s = -1 ->
                    BaseCellRotation.ccwRot60 s = 0).
  { intros s Hs Hfs. unfold row_shape_ok in Hshape.
    rewrite !andb_true_iff in Hshape.
    destruct Hshape as [[[[_ Hz] _] _] _].
    rewrite forallb_forall in Hz. specialize (Hz s Hs).
    unfold unused_rotation_zero, unused in Hz.
    rewrite Hfs in Hz. apply Z.eqb_eq. exact Hz. }
  destruct (first_slot row (FaceIJK.face (_h3ToFaceIjk cell))) as [s|] eqn:E.
  - apply first_slot_Some in E. destruct E as [Hs Hfs]. f_equal.
    apply Hzero; [exact Hs | congruence].
  - rewrite first_slot_None in E. elim (E r Hin). congruence.
Qed.

(** X8.  A face that is neither a face of the icosahedron nor the marker of
    an unused slot is found on no base cell: on every base cell of the
    table [vertexRotations] returns [INVALID_ROTATIONS] for it. *)
Theorem vertexRotations_unknown_face (cell : H3Index) :
  0 <= h3GetBaseCell cell < NUM_BASE_CELLS ->
  FaceIJK.face (_h3ToFaceIjk cell) < -1
  \/ NUM_ICOSA_FACES <= FaceIJK.face (_h3ToFaceIjk cell) ->
  vertexRotations cell = Some INVALID_ROTATIONS.
Proof.
  intros Hb Hf.
  destruct (vertexRotations_cases cell Hb) as (row & v & Hrow & Hv & Hc).
  rewrite Hv. destruct Hc as [[-> _]|[_ (r & Hin & Hr)]]; [reflexivity|].
  exfalso.
  pose proof (row_shape_of_base_cell _ _ Hrow) as Hshape.
  unfold row_shape_ok in Hshape. rewrite !andb_true_iff in Hshape.
  destruct Hshape as [[[[Hface _] _] _] _].
  rewrite forallb_forall in Hface. specialize (Hface r Hin).
  unfold face_in_range, unused in Hface. apply orb_true_iff in Hface.
  unfold NUM_ICOSA_FACES in *.
  destruct Hface as [H|H].
  - apply Z.eqb_eq in H. lia.
  - apply andb_true_iff in H. destruct H as [H1 H2].
    apply Z.leb_le in H1. apply Z.ltb_lt in H2. lia.
Qed.

(** X9.  The order in which the loop of [vertexRotations] goes through the
    slots does not matter: run over any permutation of the indexes
    [0 .. MAX_BASE_CELL_FACES - 1] it returns what [vertexRotations]
    returns. *)
Theorem vertexRotations_scan_order (cell : H3Index) (idxs : list Z) :
  Permutation idxs (indexes 0 (Z.to_nat MAX_BASE_CELL_FACES)) ->
  vertexRotations_loop (_h3ToFaceIjk cell) (h3GetBaseCell cell)
    (Z.of_N (_h3LeadingNonZeroDigit cell)) idxs
  = vertexRotations cell.
Proof.
  intros Hperm. unfold vertexRotations.
  set (all := indexes 0 (Z.to_nat MAX_BASE_CELL_FACES)) in *.
  destruct (index baseCellVertexRotations (h3GetBaseCell cell))
    as [row|] eqn:Hrow.
  - destruct (row_of_base_cell _ _ Hrow) as [_ Hok].
    destruct (row_ok_checked_slots _ Hok) as (rIK & rJK & HIK & HJK & _).
    destruct (row_ok_slots _ Hok) as (r0 & r1 & r2 & r3 & r4 & Erow).
    assert (Hall : forall n, In n all -> exists r, index row n = Some r).
    { intros n Hn. rewrite Erow. cbv in Hn.
      destruct Hn as [<-|[<-|[<-|[<-|[<-|[]]]]]]; cbv; eauto. }
    assert (Hidxs : forall n, In n idxs -> exists r, index row n = Some r).
    { intros n Hn. apply Hall. eapply Permutation_in; eassumption. }
    destruct (vertexRotations_loop_row cell row rIK rJK idxs
                Hrow HIK HJK Hidxs)
      as [[H1 N1]|(n1 & s1 & I1 & S1 & F1 & H1)];
      destruct (vertexRotations_loop_row cell row rIK rJK all
                  Hrow HIK HJK Hall)
        as [[H2 N2]|(n2 & s2 & I2 & S2 & F2 & H2)];
      rewrite H1, H2.
    + reflexivity.
    + elim (N1 n2 s2); [| exact S2 | exact F2].
      eapply Permutation_in; [apply Permutation_sym|]; eassumption.
    + elim (N2 n1 s1); [| exact S1 | exact F1].
      eapply Permutation_in; eassumption.
    + f_equal. unfold corrected.
      assert (Hrot : BaseCellRotation.ccwRot60 s1
                     = BaseCellRotation.ccwRot60 s2).
      { apply (row_ok_agree row s1 s2 Hok).
        - apply (index_Some _ _ _ S1).
        - apply (index_Some _ _ _ S2).
        - congruence. }
      rewrite Hrot. reflexivity.
  - assert (Hnone : forall l, l <> [] ->
              vertexRotations_loop (_h3ToFaceIjk cell) (h3GetBaseCell cell)
                (Z.of_N (_h3LeadingNonZeroDigit cell)) l = None).
    { intros [|n rest] Hl; [congruence|].
      cbn [vertexRotations_loop]. unfold baseCellVertexRotations_at.
      rewrite Hrow. reflexivity. }
    rewrite !Hnone; [reflexivity | discriminate |].
    intros ->. apply Permutation_nil in Hperm. discriminate.
Qed.

End ResolverExtras.

(** ** More on the direction-to-vertex mapper *)

Section MapperExtras.
Context {lib : H3Lib}.

Lemma vertexRotations_rotation_range (cell : H3Index) (rotations : Z) :
  vertexRotations cell = Some rotations ->
  rotations <> INVALID_ROTATIONS -> 0 <= rotations <= 5.
Proof.
  intros Hv Hne.
  pose proof (vertexRotations_defined cell rotations Hv) as Hb.
  destruct (vertexRotations_cases cell Hb) as (row & v & _ & Hv' & Hc).
  rewrite Hv in Hv'. injection Hv' as <-.
  destruct Hc as [[Hi _]|[Hr _]]; [contradiction | exact Hr].
Qed.

(** The check of the direction at the head of [vertexNumForDirection]. *)
Lemma direction_check (origin : H3Index) (direction : Direction) :
  (direction =? CENTER_DIGIT)%N
  || (INVALID_DIGIT <=? direction)%N
  || (truthy (h3IsPentagon origin) && (direction =? K_AXES_DIGIT)%N) = true
  <-> direction = CENTER_DIGIT
      \/ (INVALID_DIGIT <= direction)%N
      \/ (truthy (h3IsPentagon origin) = true /\ direction = K_AXES_DIGIT).
Proof.
  rewrite !orb_true_iff, andb_true_iff, !N.eqb_eq, N.leb_le. tauto.
Qed.

Lemma vertexNumForDirection_rejected (origin : H3Index)
    (direction : Direction) :
  direction = CENTER_DIGIT
  \/ (INVALID_DIGIT <= direction)%N
  \/ (truthy (h3IsPentagon origin) = true /\ direction = K_AXES_DIGIT) ->
  vertexNumForDirection origin direction = Some INVALID_VERTEX_NUM.
Proof.
  intros H. apply direction_check in H. unfold vertexNumForDirection.
  rewrite H. reflexivity.
Qed.

Lemma vertexNumForDirection_accepted (origin : H3Index)
    (direction : Direction) :
  ~ (direction = CENTER_DIGIT
     \/ (INVALID_DIGIT <= direction)%N
     \/ (truthy (h3IsPentagon origin) = true /\ direction = K_AXES_DIGIT)) ->
  direction <> CENTER_DIGIT /\ (direction < INVALID_DIGIT)%N
  /\ ~ (truthy (h3IsPentagon origin) = true /\ direction = K_AXES_DIGIT).
Proof.
  intros H. repeat split.
  - intros E. apply H. left. exact E.
  - destruct (N.lt_ge_cases direction INVALID_DIGIT) as [Hlt|Hge];
      [exact Hlt|]. elim H. right. left. exact Hge.
  - intros E. apply H. right. right. exact E.
Qed.

(** X10.  [vertexNumForDirection] reads inside the tables exactly when the
    direction is rejected or the base cell is one of
    [0 .. NUM_BASE_CELLS - 1]: a rejected direction returns before any
    table is read, whatever the cell, and no ordinal of a direction leads
    to a read outside the tables of vertex numbers. *)
Theorem vertexNumForDirection_defined_iff (origin : H3Index)
    (direction : Direction) :
  (exists v, vertexNumForDirection origin direction = Some v)
  <-> (direction = CENTER_DIGIT
       \/ (INVALID_DIGIT <= direction)%N
       \/ (truthy (h3IsPentagon origin) = true
           /\ direction = K_AXES_DIGIT))
      \/ 0 <= h3GetBaseCell origin < NUM_BASE_CELLS.
Proof.
  destruct ((direction =? CENTER_DIGIT)%N
            || (INVALID_DIGIT <=? direction)%N
            || (truthy (h3IsPentagon origin)
                && (direction =? K_AXES_DIGIT)%N)) eqn:Hchk.
  - apply direction_check in Hchk. split; [intros _; left; exact Hchk|].
    intros _. eexists. apply vertexNumForDirection_rejected. exact Hchk.
  - assert (Hacc : ~ (direction = CENTER_DIGIT
                      \/ (INVALID_DIGIT <= direction)%N
                      \/ (truthy (h3IsPentagon origin) = true
                          /\ direction = K_AXES_DIGIT))).
    { intros H. apply direction_check in H. congruence. }
    split.
    + intros [v Hv]. right. unfold vertexNumForDirection in Hv.
      rewrite Hchk in Hv.
      destruct (vertexRotations origin) as [rot|] eqn:Hrot;
        [|discriminate].
      exact (vertexRotations_defined origin rot Hrot).
    + intros [H|Hb]; [contradiction|].
      destruct (vertexRotations_cases origin Hb)
        as (row & rot & _ & Hrot & Hc).
      destruct Hc as [[-> _]|[Hr _]].
      * exists INVALID_VERTEX_NUM. unfold vertexNumForDirection.
        rewrite Hchk, Hrot. reflexivity.
      * destruct (vertexNumForDirection_accepted origin direction Hacc)
          as (H1 & H2 & H3).
        destruct (vertexNumForDirection_valid origin direction rot
                    H1 H2 H3 Hrot Hr) as (c & _ & _ & Hv).
        eexists. exact Hv.
Qed.

(** X11.  On a base cell of the table [vertexNumForDirection] returns
    [INVALID_VERTEX_NUM] in two cases only: the direction is rejected, or
    no slot of the base cell records the cell's face. *)
Theorem vertexNumForDirection_invalid_iff (origin : H3Index)
    (direction : Direction) :
  0 <= h3GetBaseCell origin < NUM_BASE_CELLS ->
  (vertexNumForDirection origin direction = Some INVALID_VERTEX_NUM
   <-> (direction = CENTER_DIGIT
        \/ (INVALID_DIGIT <= direction)%N
        \/ (truthy (h3IsPentagon origin) = true
            /\ direction = K_AXES_DIGIT))
       \/ (forall (n : Z) (r : BaseCellRotation.t),
              baseCellVertexRotations_at (h3GetBaseCell origin) n = Some r ->
              BaseCellRotation.face r
              <> FaceIJK.face (_h3ToFaceIjk origin))).
Proof.
  intros Hb.
  destruct (vertexRotations_cases origin Hb) as (row & rot & Hrow & Hrot & Hc).
  destruct ((direction =? CENTER_DIGIT)%N
            || (INVALID_DIGIT <=? direction)%N
            || (truthy (h3IsPentagon origin)
                && (direction =? K_AXES_DIGIT)%N)) eqn:Hchk.
  - apply direction_check in Hchk. split; [intros _; left; exact Hchk|].
    intros _. apply vertexNumForDirection_rejected. exact Hchk.
  - assert (Hacc : ~ (direction = CENTER_DIGIT
                      \/ (INVALID_DIGIT <= direction)%N
                      \/ (truthy (h3IsPentagon origin) = true
                          /\ direction = K_AXES_DIGIT))).
    { intros H. apply direction_check in H. congruence. }
    destruct Hc as [[-> Hnone]|[Hr (r & Hin & Hf)]].
    + split.
      * intros _. right. intros n s Hat Hs.
        destruct (at_Some _ _ _ Hat) as (row' & Hrow' & Hn).
        rewrite Hrow in Hrow'. injection Hrow' as <-.
        apply index_Some in Hn. exact (Hnone s (proj2 Hn) Hs).
      * intros _. unfold vertexNumForDirection. rewrite Hchk, Hrot.
        reflexivity.
    + destruct (vertexNumForDirection_accepted origin direction Hacc)
        as (H1 & H2 & H3).
      destruct (vertexNumForDirection_valid origin direction rot
                  H1 H2 H3 Hrot Hr) as (c & _ & Hc & Hv).
      rewrite Hv. split.
      * intros E. injection E as E. exfalso.
        pose proof (rotatedVertexNum_range c
                      (if truthy (h3IsPentagon origin)
                       then NUM_PENT_VERTS else NUM_HEX_VERTS) rot) as Hrange.
        unfold NUM_PENT_VERTS, NUM_HEX_VERTS, INVALID_VERTEX_NUM in *.
        destruct (truthy (h3IsPentagon origin)); lia.
      * intros [H|Hno]; [contradiction|]. exfalso.
        destruct (In_nth_error _ _ Hin) as [m Hm].
        apply (Hno (Z.of_nat m) r); [|exact Hf].
        unfold baseCellVertexRotations_at. rewrite Hrow. cbn [bind].
        unfold index. destruct (Z.of_nat m <? 0) eqn:E;
          [apply Z.ltb_lt in E; lia|].
        rewrite Nat2Z.id. exact Hm.
Qed.

(** The mapper on a hexagon and on a pentagon, for the directions that have
    a vertex. *)
Lemma vertexNumForDirection_hexagon (origin : H3Index) (rotations : Z)
    (direction : Direction) :
  truthy (h3IsPentagon origin) = false ->
  vertexRotations origin = Some rotations -> 0 <= rotations <= 5 ->
  In direction hexagon_directions ->
  vertexNumForDirection origin direction
  = Some (rotatedVertexNum
            (nth (N.to_nat direction) directionToVertexNumHex 0)
            NUM_HEX_VERTS rotations).
Proof.
  intros Hp Hrot Hr Hin. unfold vertexNumForDirection.
  rewrite Hp, Hrot. cbn [bind].
  replace (rotations =? INVALID_ROTATIONS) with false
    by (symmetry; apply Z.eqb_neq; unfold INVALID_ROTATIONS; lia).
  cbn in Hin.
  destruct Hin as [<-|[<-|[<-|[<-|[<-|[<-|[]]]]]]]; reflexivity.
Qed.

Lemma vertexNumForDirection_pentagon (origin : H3Index) (rotations : Z)
    (direction : Direction) :
  truthy (h3IsPentagon origin) = true ->
  vertexRotations origin = Some rotations -> 0 <= rotations <= 5 ->
  In direction pentagon_directions ->
  vertexNumForDirection origin direction
  = Some (rotatedVertexNum
            (nth (N.to_nat direction) directionToVertexNumPent 0)
            NUM_PENT_VERTS rotations).
Proof.
  intros Hp Hrot Hr Hin. unfold vertexNumForDirection.
  rewrite Hp, Hrot. cbn [bind].
  replace (rotations =? INVALID_ROTATIONS) with false
    by (symmetry; apply Z.eqb_neq; unfold INVALID_ROTATIONS; lia).
  cbn in Hin.
  destruct Hin as [<-|[<-|[<-|[<-|[<-|[]]]]]]; reflexivity.
Qed.

Ltac rotation_cases rotations H :=
  let E := fresh "E" in
  assert (E : rotations = 0 \/ rotations = 1 \/ rotations = 2
              \/ rotations = 3 \/ rotations = 4 \/ rotations = 5) by lia;
  clear H;
  destruct E as [->|[->|[->|[->|[->| ->]]]]].

(** X12.  For a hexagon whose rotation is resolved, the six directions
    other than the center get six different vertex numbers, and every
    vertex number of [0,5] is the one of some direction. *)
Theorem hexagon_directions_vertexes (origin : H3Index) (rotations : Z) :
  truthy (h3IsPentagon origin) = false ->
  vertexRotations origin = Some rotations ->
  rotations <> INVALID_ROTATIONS ->
  (forall d1 d2 : Direction,
      In d1 hexagon_directions -> In d2 hexagon_directions ->
      vertexNumForDirection origin d1 = vertexNumForDirection origin d2 ->
      d1 = d2)
  /\ (forall v : Z,
         0 <= v < NUM_HEX_VERTS ->
         exists d, In d hexagon_directions
                   /\ vertexNumForDirection origin d = Some v).
Proof.
  intros Hp Hrot Hne.
  pose proof (vertexRotations_rotation_range origin rotations Hrot Hne) as Hr.
  split.
  - intros d1 d2 H1 H2 Heq.
    rewrite (vertexNumForDirection_hexagon origin rotations d1 Hp Hrot Hr H1),
      (vertexNumForDirection_hexagon origin rotations d2 Hp Hrot Hr H2)
      in Heq.
    injection Heq as Heq. clear Hrot Hne. cbn in H1, H2.
    rotation_cases rotations Hr;
      destruct H1 as [<-|[<-|[<-|[<-|[<-|[<-|[]]]]]]];
      destruct H2 as [<-|[<-|[<-|[<-|[<-|[<-|[]]]]]]];
      first [reflexivity | exfalso; vm_compute in Heq; discriminate Heq].
  - intros v Hv.
    assert (Hd : forall d, In d hexagon_directions ->
              rotatedVertexNum
                (nth (N.to_nat d) directionToVertexNumHex 0)
                NUM_HEX_VERTS rotations = v ->
              exists d, In d hexagon_directions
                        /\ vertexNumForDirection origin d = Some v).
    { intros d Hin E. exists d. split; [exact Hin|].
      rewrite (vertexNumForDirection_hexagon origin rotations d
                 Hp Hrot Hr Hin), E. reflexivity. }
    unfold NUM_HEX_VERTS in Hv.
    assert (Ev : v = 0 \/ v = 1 \/ v = 2 \/ v = 3 \/ v = 4 \/ v = 5) by lia.
    clear Hrot Hne Hv.
    rotation_cases rotations Hr;
      destruct Ev as [->|[->|[->|[->|[->| ->]]]]];
      first [ apply (Hd K_AXES_DIGIT); [cbn; tauto | reflexivity]
            | apply (Hd J_AXES_DIGIT); [cbn; tauto | reflexivity]
            | apply (Hd JK_AXES_DIGIT); [cbn; tauto | reflexivity]
            | apply (Hd I_AXES_DIGIT); [cbn; tauto | reflexivity]
            | apply (Hd IK_AXES_DIGIT); [cbn; tauto | reflexivity]
            | apply (Hd IJ_AXES_DIGIT); [cbn; tauto | reflexivity] ].
Qed.

(** X13.  For a pentagon whose rotation is resolved, the five directions
    other than the center and the K axis get five different vertex numbers,
    and every vertex number of [0,4] is the one of some direction. *)
Theorem pentagon_directions_vertexes (origin : H3Index) (rotations : Z) :
  truthy (h3IsPentagon origin) = true ->
  vertexRotations origin = Some rotations ->
  rotations <> INVALID_ROTATIONS ->
  (forall d1 d2 : Direction,
      In d1 pentagon_directions -> In d2 pentagon_directions ->
      vertexNumForDirection origin d1 = vertexNumForDirection origin d2 ->
      d1 = d2)
  /\ (forall v : Z,
         0 <= v < NUM_PENT_VERTS ->
         exists d, In d pentagon_directions
                   /\ vertexNumForDirection origin d = Some v).
Proof.
  intros Hp Hrot Hne.
  pose proof (vertexRotations_rotation_range origin rotations Hrot Hne) as Hr.
  split.
  - intros d1 d2 H1 H2 Heq.
    rewrite (vertexNumForDirection_pentagon origin rotations d1 Hp Hrot Hr H1),
      (vertexNumForDirection_pentagon origin rotations d2 Hp Hrot Hr H2)
      in Heq.
    injection Heq as Heq. clear Hrot Hne. cbn in H1, H2.
    rotation_cases rotations Hr;
      destruct H1 as [<-|[<-|[<-|[<-|[<-|[]]]]]];
      destruct H2 as [<-|[<-|[<-|[<-|[<-|[]]]]]];
      first [reflexivity | exfalso; vm_compute in Heq; discriminate Heq].
  - intros v Hv.
    assert (Hd : forall d, In d pentagon_directions ->
              rotatedVertexNum
                (nth (N.to_nat d) directionToVertexNumPent 0)
                NUM_PENT_VERTS rotations = v ->
              exists d, In d pentagon_directions
                        /\ vertexNumForDirection origin d = Some v).
    { intros d Hin E. exists d. split; [exact Hin|].
      rewrite (vertexNumForDirection_pentagon origin rotations d
                 Hp Hrot Hr Hin), E. reflexivity. }
    unfold NUM_PENT_VERTS in Hv.
    assert (Ev : v = 0 \/ v = 1 \/ v = 2 \/ v = 3 \/ v = 4) by lia.
    clear Hrot Hne Hv.
    rotation_cases rotations Hr;
      destruct Ev as [->|[->|[->|[->| ->]]]];
      first [ apply (Hd J_AXES_DIGIT); [cbn; tauto | reflexivity]
            | apply (Hd JK_AXES_DIGIT); [cbn; tauto | reflexivity]
            | apply (Hd I_AXES_DIGIT); [cbn; tauto | reflexivity]
            | apply (Hd IK_AXES_DIGIT); [cbn; tauto | reflexivity]
            | apply (Hd IJ_AXES_DIGIT); [cbn; tauto | reflexivity] ].
Qed.

(** X14.  Adding the rotation back undoes the mapper: for a direction that
    is not rejected and a resolved rotation, the vertex number returned,
    plus the rotation, is the entry of the direction in the table of the
    cell's shape, modulo the number of vertexes. *)
Theorem vertexNumForDirection_unrotate (origin : H3Index)
    (direction : Direction) (rotations : Z) :
  direction <> CENTER_DIGIT ->
  (direction < INVALID_DIGIT)%N ->
  ~ (truthy (h3IsPentagon origin) = true /\ direction = K_AXES_DIGIT) ->
  vertexRotations origin = Some rotations ->
  rotations <> INVALID_ROTATIONS ->
  exists v canonical,
    vertexNumForDirection origin direction = Some v
    /\ at_direction (if truthy (h3IsPentagon origin)
                     then directionToVertexNumPent
                     else directionToVertexNumHex) direction = Some canonical
    /\ (v + rotations) mod (if truthy (h3IsPentagon origin)
                            then NUM_PENT_VERTS else NUM_HEX_VERTS)
       = canonical.
Proof.
  intros Hc Hi Hk Hrot Hne.
  pose proof (vertexRotations_rotation_range origin rotations Hrot Hne) as Hr.
  destruct (vertexNumForDirection_valid origin direction rotations
              Hc Hi Hk Hrot Hr) as (c & Hat & Hcr & Hv).
  eexists. exists c. split; [exact Hv|]. split; [exact Hat|].
  set (m := if truthy (h3IsPentagon origin)
            then NUM_PENT_VERTS else NUM_HEX_VERTS) in *.
  assert (Hm : 0 < m /\ 5 <= m).
  { unfold m, NUM_PENT_VERTS, NUM_HEX_VERTS.
    destruct (truthy (h3IsPentagon origin)); lia. }
  rewrite rotatedVertexNum_mod by lia.
  rewrite Z.add_mod_idemp_l by lia.
  replace (c + m - rotations + rotations) with (c + 1 * m) by lia.
  rewrite Z.mod_add by lia. apply Z.mod_small. lia.
Qed.

End MapperExtras.

(** ** The further theorems at work on the sample library *)

Lemma table_slot_contents_witness :
  0 <= 3 <= 5
  /\ ((0 <= 6 < NUM_ICOSA_FACES) \/ (6 = -1 /\ 3 = 0 /\ 2 <= 3)).
Proof.
  exact (table_slot_contents 2 3 (R 6 3) eq_refl).
Defined.

Lemma table_unused_slots_last_witness :
  BaseCellRotation.face (R (-1) 0) = -1.
Proof.
  apply (table_unused_slots_last 0 3 4 (R (-1) 0) (R (-1) 0));
    [reflexivity | reflexivity | reflexivity | lia].
Defined.

Lemma table_face_slot_unique_witness : 3 = 3.
Proof.
  apply (table_face_slot_unique 4 3 3 (R 1 2) (R 1 2));
    [reflexivity | reflexivity | discriminate | reflexivity].
Defined.

Lemma vertexRotations_not_pentagon_witness :
  @vertexRotations Sample.lib (Sample.cell 6 2 5) = Some 3.
Proof.
  exact (@vertexRotations_not_pentagon Sample.lib (Sample.cell 6 2 5)
           3 (R 6 3) eq_refl eq_refl eq_refl).
Defined.

Lemma vertexRotations_crossing_slots_witness :
  @vertexRotations Sample.lib (Sample.cell 1 4 3) = Some ((2 - 1) mod 6)
  /\ @vertexRotations Sample.lib (Sample.cell 0 4 5) = Some ((0 + 1) mod 6).
Proof.
  split.
  - exact (proj1 (@vertexRotations_crossing_slots Sample.lib
                    (Sample.cell 1 4 3) (R 1 2) (R 0 0)
                    eq_refl eq_refl eq_refl) eq_refl eq_refl).
  - exact (proj2 (@vertexRotations_crossing_slots Sample.lib
                    (Sample.cell 0 4 5) (R 1 2) (R 0 0)
                    eq_refl eq_refl eq_refl) eq_refl eq_refl).
Defined.

Lemma vertexRotations_unused_marker_witness :
  @vertexRotations Sample.below (Sample.cell 0 2 0) = Some 0.
Proof.
  exact (@vertexRotations_unused_marker Sample.below (Sample.cell 0 2 0)
           4 (R (-1) 0) eq_refl eq_refl eq_refl eq_refl).
Defined.

Lemma vertexRotations_unknown_face_witness :
  @vertexRotations Sample.lib (Sample.cell 25 2 0) = Some INVALID_ROTATIONS.
Proof.
  apply (@vertexRotations_unknown_face Sample.lib (Sample.cell 25 2 0)).
  - vm_compute. split; [discriminate | reflexivity].
  - right. vm_compute. discriminate.
Defined.

Lemma vertexRotations_scan_order_witness :
  @vertexRotations_loop Sample.lib
    (@_h3ToFaceIjk Sample.lib (Sample.cell 1 4 3)) 4 3 [4; 3; 2; 1; 0]
  = @vertexRotations Sample.lib (Sample.cell 1 4 3).
Proof.
  exact (@vertexRotations_scan_order Sample.lib (Sample.cell 1 4 3)
           [4; 3; 2; 1; 0] (Permutation_rev [4; 3; 2; 1; 0])).
Defined.

Lemma vertexNumForDirection_invalid_iff_witness :
  @vertexNumForDirection Sample.lib (Sample.cell 7 2 0) J_AXES_DIGIT
  = Some INVALID_VERTEX_NUM
  <-> (J_AXES_DIGIT = CENTER_DIGIT
       \/ (INVALID_DIGIT <= J_AXES_DIGIT)%N
       \/ (truthy (@h3IsPentagon Sample.lib (Sample.cell 7 2 0)) = true
           /\ J_AXES_DIGIT = K_AXES_DIGIT))
      \/ (forall (n : Z) (r : BaseCellRotation.t),
             baseCellVertexRotations_at 2 n = Some r ->
             BaseCellRotation.face r <> 7).
Proof.
  apply (@vertexNumForDirection_invalid_iff Sample.lib (Sample.cell 7 2 0)
           J_AXES_DIGIT).
  vm_compute. split; [discriminate | reflexivity].
Defined.

Lemma hexagon_directions_vertexes_witness :
  (forall d1 d2 : Direction,
      In d1 hexagon_directions -> In d2 hexagon_directions ->
      @vertexNumForDirection Sample.lib (Sample.cell 6 2 0) d1
      = @vertexNumForDirection Sample.lib (Sample.cell 6 2 0) d2 ->
      d1 = d2)
  /\ (forall v : Z,
         0 <= v < NUM_HEX_VERTS ->
         exists d, In d hexagon_directions
                   /\ @vertexNumForDirection Sample.lib (Sample.cell 6 2 0) d
                      = Some v).
Proof.
  apply (@hexagon_directions_vertexes Sample.lib (Sample.cell 6 2 0) 3);
    [reflexivity | reflexivity | discriminate].
Defined.

Lemma pentagon_directions_vertexes_witness :
  (forall d1 d2 : Direction,
      In d1 pentagon_directions -> In d2 pentagon_directions ->
      @vertexNumForDirection Sample.lib (Sample.cell 1 4 0) d1
      = @vertexNumForDirection Sample.lib (Sample.cell 1 4 0) d2 ->
      d1 = d2)
  /\ (forall v : Z,
         0 <= v < NUM_PENT_VERTS ->
         exists d, In d pentagon_directions
                   /\ @vertexNumForDirection Sample.lib (Sample.cell 1 4 0) d
                      = Some v).
Proof.
  apply (@pentagon_directions_vertexes Sample.lib (Sample.cell 1 4 0) 2);
    [reflexivity | reflexivity | discriminate].
Defined.

Lemma vertexNumForDirection_unrotate_witness :
  exists v canonical,
    @vertexNumForDirection Sample.lib (Sample.cell 6 2 0) J_AXES_DIGIT
    = Some v
    /\ at_direction directionToVertexNumHex J_AXES_DIGIT = Some canonical
    /\ (v + 3) mod NUM_HEX_VERTS = canonical.
Proof.
  apply (@vertexNumForDirection_unrotate Sample.lib (Sample.cell 6 2 0)
           J_AXES_DIGIT 3).
  - discriminate.
  - reflexivity.
  - intros [H _]. discriminate H.
  - reflexivity.
  - discriminate.
Defined.
